(** * RecipeHub: ownership, referential integrity and cascade rules

    A shallow embedding of the Express route handlers of the RecipeHub
    server (routes/recipes.js, routes/comments.js, routes/folders.js) and
    of the Mongoose schemas they act on (models/Recipe.js,
    models/Comment.js, models/Folder.js).

    Conventions of the embedding.
    - A collection is a finite map from the document's [_id] to the rest
      of the document; a loaded document is the pair of its [_id] and its
      fields.
    - An ObjectId is kept in the form [toString()] prints it (24 lower-case
      hexadecimal digits).  Path parameters and body references arrive as
      arbitrary strings and are cast by the store ([castObjectId]); a
      failed cast throws the CastError whose [kind] is ['ObjectId'].
    - Each handler runs in a small state monad over the database with
      early return ([return res.status(..)]) and exceptions, wrapped by
      the handler's [try]/[catch].
    - The [auth] middleware has run: [uid] is [req.user.id].
    - Request payloads are typed after the schema (a field that is not
      sent is [None]).  [save()] runs the [required] validators of the
      schema on the whole document: a required string must not be empty
      (the title and the description of a Recipe, the name and the
      quantity of each ingredient, the text of each instruction, the text
      of a Comment, the name of a Folder); [findByIdAndUpdate] runs none.
    - The database carries a write journal ([oplog]) recording the order
      in which a handler issues its writes.
    - The routes embedded are those that write, and the read of a single
      Comment; the listing routes only read. *)

From Stdlib Require Import ZArith Ascii String List Bool Lia.
From stdpp Require Import base option list gmap strings fin_maps.
From stdpp Require Import sorting.

Local Open Scope string_scope.
Local Open Scope Z_scope.

(** ** Identifiers *)

Definition ObjectId := string.

Definition toString (o : ObjectId) : string := o.

Definition isHexDigit (a : ascii) : bool :=
  let n := nat_of_ascii a in
  ((48 <=? n)%nat && (n <=? 57)%nat)
  || ((97 <=? n)%nat && (n <=? 102)%nat)
  || ((65 <=? n)%nat && (n <=? 70)%nat).

Definition toLowerCase (a : ascii) : ascii :=
  let n := nat_of_ascii a in
  if ((65 <=? n)%nat && (n <=? 90)%nat)%bool then ascii_of_nat (n + 32) else a.

(** The driver's cast of a string to an ObjectId: 24 hexadecimal digits,
    printed back in lower case; anything else is a CastError. *)
Definition castObjectId (s : string) : option ObjectId :=
  let cs := list_ascii_of_string s in
  if ((length cs =? 24)%nat && forallb isHexDigit cs)%bool
  then Some (string_of_list_ascii (List.map toLowerCase cs))
  else None.

(** ** Documents (models/Recipe.js, models/Comment.js, models/Folder.js) *)

Record Like := { like_user : ObjectId }.

Record Ingredient := {
  ing_name : string;
  ing_quantity : string;
  ing_unit : option string
}.

Record Instruction := {
  ins_step : Z;
  ins_text : string
}.

Module Recipe.
Record t := {
  user : ObjectId;
  title : string;
  description : string;
  ingredients : list Ingredient;
  instructions : list Instruction;
  cookingTime : Z;
  servings : Z;
  image : option string;
  tags : list string;
  parentRecipe : option ObjectId;
  isForked : bool;
  modifications : option string;
  likes : list Like;
  date : N
}.

Definition set_likes (l : list Like) (r : t) : t :=
  {| user := user r; title := title r; description := description r;
     ingredients := ingredients r; instructions := instructions r;
     cookingTime := cookingTime r; servings := servings r;
     image := image r; tags := tags r; parentRecipe := parentRecipe r;
     isForked := isForked r; modifications := modifications r;
     likes := l; date := date r |}.

Definition set_image (i : string) (r : t) : t :=
  {| user := user r; title := title r; description := description r;
     ingredients := ingredients r; instructions := instructions r;
     cookingTime := cookingTime r; servings := servings r;
     image := Some i; tags := tags r; parentRecipe := parentRecipe r;
     isForked := isForked r; modifications := modifications r;
     likes := likes r; date := date r |}.
End Recipe.

Module Comment.
Record t := {
  user : ObjectId;
  recipe : ObjectId;
  text : string;
  name : option string;
  avatar : option string;
  likes : list Like;
  date : N
}.

Definition set_likes (l : list Like) (c : t) : t :=
  {| user := user c; recipe := recipe c; text := text c; name := name c;
     avatar := avatar c; likes := l; date := date c |}.

Definition set_text (s : string) (c : t) : t :=
  {| user := user c; recipe := recipe c; text := s; name := name c;
     avatar := avatar c; likes := likes c; date := date c |}.
End Comment.

Module Folder.
Record t := {
  user : ObjectId;
  name : string;
  description : option string;
  recipes : list ObjectId;
  isPublic : bool;
  date : N
}.

Definition set_recipes (l : list ObjectId) (f : t) : t :=
  {| user := user f; name := name f; description := description f;
     recipes := l; isPublic := isPublic f; date := date f |}.
End Folder.

(** models/User.js is not part of the sources at hand; the handlers read
    only these two paths of it. *)
Module User.
Record t := {
  name : option string;
  avatar : option string
}.
End User.

(** ** The database *)

Inductive collection := users_c | recipes_c | comments_c | folders_c.

Inductive write :=
  | InsertOne (c : collection) (id : ObjectId)
  | UpdateOne (c : collection) (id : ObjectId)
  | DeleteOne (c : collection) (id : ObjectId)
  | DeleteMany (c : collection) (path : string) (value : ObjectId).

Record DB := {
  users : gmap string User.t;
  recipes : gmap string Recipe.t;
  comments : gmap string Comment.t;
  folders : gmap string Folder.t;
  oplog : list write
}.

Definition with_recipes (m : gmap string Recipe.t) (w : write) (db : DB) : DB :=
  {| users := users db; recipes := m; comments := comments db;
     folders := folders db; oplog := (oplog db ++ [w])%list |}.

Definition with_comments (m : gmap string Comment.t) (w : write) (db : DB) : DB :=
  {| users := users db; recipes := recipes db; comments := m;
     folders := folders db; oplog := (oplog db ++ [w])%list |}.

Definition with_folders (m : gmap string Folder.t) (w : write) (db : DB) : DB :=
  {| users := users db; recipes := recipes db; comments := comments db;
     folders := m; oplog := (oplog db ++ [w])%list |}.

(** ** Responses *)

Inductive json :=
  | Msg (msg : string)
  | Errors (errors : list string)
  | Text (s : string)
  | Null
  | RecipeDoc (id : ObjectId) (r : Recipe.t)
  | CommentDoc (id : ObjectId) (c : Comment.t)
  | CommentPopulated (id : ObjectId) (c : Comment.t) (u : option User.t)
  | FolderDoc (id : ObjectId) (f : Folder.t)
  | Likes (l : list Like).

Record response := { status : nat; body : json }.

(** ** The handler monad *)

Inductive exn :=
  | CastError          (* err.kind === 'ObjectId' *)
  | ValidationError    (* a required path is missing on save *)
  | DuplicateKey       (* insert of an _id that is taken *)
  | TypeError.         (* property read on null *)

Inductive outcome (A : Type) :=
  | Val (a : A)
  | Return (r : response)
  | Throw (e : exn).
Arguments Val {A} a.
Arguments Return {A} r.
Arguments Throw {A} e.

Definition M (A : Type) : Type := DB -> outcome A * DB.

Definition ret {A} (a : A) : M A := fun db => (Val a, db).

Definition bind {A B} (m : M A) (k : A -> M B) : M B :=
  fun db =>
    match m db with
    | (Val a, db') => k a db'
    | (Return r, db') => (Return r, db')
    | (Throw e, db') => (Throw e, db')
    end.

Definition reply {A} (st : nat) (b : json) : M A :=
  fun db => (Return {| status := st; body := b |}, db).

Definition throw {A} (e : exn) : M A := fun db => (Throw e, db).

Declare Scope handler_scope.
Delimit Scope handler_scope with handler.
Notation "x <- m ;; k" := (bind m (fun x => k))
  (at level 100, m at next level, right associativity) : handler_scope.
Notation "m ;;; k" := (bind m (fun _ => k))
  (at level 100, right associativity) : handler_scope.
Local Open Scope handler_scope.

(** [res.json(b)]: status 200. *)
Definition res_json {A} (b : json) : M A := reply 200 b.

(** [try { body } catch (err) { handler }] around a whole route. *)
Definition try_catch (body : M response) (catch : exn -> response)
  : DB -> response * DB :=
  fun db =>
    match body db with
    | (Val r, db') => (r, db')
    | (Return r, db') => (r, db')
    | (Throw e, db') => (catch e, db')
    end.

Definition ServerError : response := {| status := 500; body := Text "Server Error" |}.

(** [catch (err) { res.status(500).send('Server Error') }] *)
Definition catch_500 (e : exn) : response := ServerError.

(** [catch (err) { if (err.kind === 'ObjectId') return 404 msg; 500 }] *)
Definition catch_ObjectId (msg : string) (e : exn) : response :=
  match e with
  | CastError => {| status := 404; body := Msg msg |}
  | _ => ServerError
  end.

(** ** Store primitives (the Mongoose calls the handlers make) *)

(** [Model.findById(id)]: casts [id]; [null] when no document has it. *)
Definition findById {D} (coll : DB -> gmap string D) (id : string)
  : M (option (ObjectId * D)) :=
  fun db =>
    match castObjectId id with
    | None => (Throw CastError, db)
    | Some k => (Val (pair k <$> coll db !! k), db)
    end.

(** [doc.save()] of a document made by [new Model(..)]. *)
Definition Recipe_insert (k : ObjectId) (r : Recipe.t) : M unit :=
  fun db =>
    match recipes db !! k with
    | Some _ => (Throw DuplicateKey, db)
    | None => (Val tt, with_recipes (<[k:=r]> (recipes db)) (InsertOne recipes_c k) db)
    end.

(** The [required] validators of the schemas, as [save()] runs them on the
    whole document: a required string is not empty (the ObjectIds, the
    numbers and the [step] of an instruction are present by their type). *)
Definition required (s : string) : bool := negb (String.eqb s "").

Definition validate_ingredient (i : Ingredient) : bool :=
  (required (ing_name i) && required (ing_quantity i))%bool.

Definition validate_instruction (i : Instruction) : bool :=
  required (ins_text i).

Definition Recipe_validate (r : Recipe.t) : bool :=
  (required (Recipe.title r)
   && required (Recipe.description r)
   && forallb validate_ingredient (Recipe.ingredients r)
   && forallb validate_instruction (Recipe.instructions r))%bool.

Arguments Recipe_validate : simpl never.

Definition Comment_validate (c : Comment.t) : bool := required (Comment.text c).

Definition Folder_validate (f : Folder.t) : bool := required (Folder.name f).

(** [newComment.save()], [newFolder.save()]: validation, then the insert. *)
Definition Comment_insert (k : ObjectId) (c : Comment.t) : M unit :=
  fun db =>
    if Comment_validate c
    then match comments db !! k with
         | Some _ => (Throw DuplicateKey, db)
         | None =>
             (Val tt, with_comments (<[k:=c]> (comments db)) (InsertOne comments_c k) db)
         end
    else (Throw ValidationError, db).

Definition Folder_insert (k : ObjectId) (f : Folder.t) : M unit :=
  fun db =>
    if Folder_validate f
    then match folders db !! k with
         | Some _ => (Throw DuplicateKey, db)
         | None =>
             (Val tt, with_folders (<[k:=f]> (folders db)) (InsertOne folders_c k) db)
         end
    else (Throw ValidationError, db).

(** [doc.save()] of a document that was loaded and then assigned to. *)
Definition Recipe_save (k : ObjectId) (r : Recipe.t) : M unit :=
  fun db =>
    if Recipe_validate r
    then (Val tt, with_recipes (<[k:=r]> (recipes db)) (UpdateOne recipes_c k) db)
    else (Throw ValidationError, db).

Definition Comment_save (k : ObjectId) (c : Comment.t) : M unit :=
  fun db =>
    if Comment_validate c
    then (Val tt, with_comments (<[k:=c]> (comments db)) (UpdateOne comments_c k) db)
    else (Throw ValidationError, db).

Definition Folder_save (k : ObjectId) (f : Folder.t) : M unit :=
  fun db =>
    if Folder_validate f
    then (Val tt, with_folders (<[k:=f]> (folders db)) (UpdateOne folders_c k) db)
    else (Throw ValidationError, db).

(** [doc.deleteOne()] *)
Definition Recipe_deleteOne (k : ObjectId) : M unit :=
  fun db => (Val tt, with_recipes (delete k (recipes db)) (DeleteOne recipes_c k) db).

Definition Comment_deleteOne (k : ObjectId) : M unit :=
  fun db => (Val tt, with_comments (delete k (comments db)) (DeleteOne comments_c k) db).

Definition Folder_deleteOne (k : ObjectId) : M unit :=
  fun db => (Val tt, with_folders (delete k (folders db)) (DeleteOne folders_c k) db).

(** [Comment.deleteMany({ recipe: id })] *)
Definition Comment_deleteMany_recipe (id : string) : M unit :=
  fun db =>
    match castObjectId id with
    | None => (Throw CastError, db)
    | Some k =>
        (Val tt,
         with_comments
           (filter (fun kc => Comment.recipe kc.2 <> k) (comments db))
           (DeleteMany comments_c "recipe" k) db)
    end.

(** ** JavaScript truthiness of the payload values *)

Definition truthyS (o : option string) : bool :=
  match o with
  | Some s => negb (String.eqb s "")
  | None => false
  end.

Definition truthyN (o : option Z) : bool :=
  match o with
  | Some n => negb (n =? 0)
  | None => false
  end.

(** An array is truthy, an empty one too. *)
Definition truthyA {A} (o : option (list A)) : bool :=
  match o with
  | Some _ => true
  | None => false
  end.

(** [if (v) fields.path = v] *)
Definition pick {A} (truthy : option A -> bool) (v : option A) : option A :=
  if truthy v then v else None.

(** ** Recipes (routes/recipes.js) *)

(** The body of POST /api/recipes, PUT /api/recipes/:id and
    POST /api/recipes/:id/fork. *)
Record RecipeBody := {
  b_title : option string;
  b_description : option string;
  b_ingredients : option (list Ingredient);
  b_instructions : option (list Instruction);
  b_cookingTime : option Z;
  b_servings : option Z;
  b_image : option string;
  b_tags : option (list string);
  b_parentRecipe : option string;
  b_modifications : option string
}.

(** The object literal handed to [new Recipe(..)] or to [$set]: a path that
    was not assigned is [None]. *)
Record RecipeFields := {
  f_user : option string;
  f_title : option string;
  f_description : option string;
  f_ingredients : option (list Ingredient);
  f_instructions : option (list Instruction);
  f_cookingTime : option Z;
  f_servings : option Z;
  f_image : option string;
  f_tags : option (list string);
  f_parentRecipe : option ObjectId;
  f_isForked : option bool;
  f_modifications : option string
}.

(** [new Recipe(fields)] followed by the checks of [save()]: required paths
    present, [user] castable, the document valid for its schema; the schema
    defaults fill [isForked], [date], and the arrays. *)
Definition new_Recipe (now : N) (f : RecipeFields) : M Recipe.t :=
  match f_user f ≫= castObjectId, f_title f, f_description f,
        f_cookingTime f, f_servings f with
  | Some u, Some t, Some d, Some ct, Some sv =>
      let recipe :=
        {| Recipe.user := u;
           Recipe.title := t;
           Recipe.description := d;
           Recipe.ingredients := default [] (f_ingredients f);
           Recipe.instructions := default [] (f_instructions f);
           Recipe.cookingTime := ct;
           Recipe.servings := sv;
           Recipe.image := f_image f;
           Recipe.tags := default [] (f_tags f);
           Recipe.parentRecipe := f_parentRecipe f;
           Recipe.isForked := default false (f_isForked f);
           Recipe.modifications := f_modifications f;
           Recipe.likes := [];
           Recipe.date := now |} in
      if Recipe_validate recipe then ret recipe else throw ValidationError
  | _, _, _, _, _ => throw ValidationError
  end.

(** [{ $set: fields }] *)
Definition apply_set (f : RecipeFields) (r : Recipe.t) : Recipe.t :=
  {| Recipe.user := default (Recipe.user r) (f_user f ≫= castObjectId);
     Recipe.title := default (Recipe.title r) (f_title f);
     Recipe.description := default (Recipe.description r) (f_description f);
     Recipe.ingredients := default (Recipe.ingredients r) (f_ingredients f);
     Recipe.instructions := default (Recipe.instructions r) (f_instructions f);
     Recipe.cookingTime := default (Recipe.cookingTime r) (f_cookingTime f);
     Recipe.servings := default (Recipe.servings r) (f_servings f);
     Recipe.image := match f_image f with Some i => Some i | None => Recipe.image r end;
     Recipe.tags := default (Recipe.tags r) (f_tags f);
     Recipe.parentRecipe :=
       match f_parentRecipe f with Some p => Some p | None => Recipe.parentRecipe r end;
     Recipe.isForked := default (Recipe.isForked r) (f_isForked f);
     Recipe.modifications :=
       match f_modifications f with Some m => Some m | None => Recipe.modifications r end;
     Recipe.likes := Recipe.likes r;
     Recipe.date := Recipe.date r |}.

(** [Recipe.findByIdAndUpdate(id, { $set: fields }, { new: true })] *)
Definition Recipe_findByIdAndUpdate (id : string) (f : RecipeFields)
  : M (option (ObjectId * Recipe.t)) :=
  fun db =>
    match castObjectId id with
    | None => (Throw CastError, db)
    | Some k =>
        match recipes db !! k with
        | None => (Val None, db)
        | Some r =>
            (Val (Some (k, apply_set f r)),
             with_recipes (<[k:=apply_set f r]> (recipes db)) (UpdateOne recipes_c k) db)
        end
    end.

(** express-validator: [check(path, msg).not().isEmpty()],
    [.isArray({ min: 1 })], [.isNumeric()]; the messages of the failed
    checks, in the order of the checks. *)
Definition check (ok : bool) (msg : string) : list string :=
  if ok then [] else [msg].

Definition isArrayMin1 {A} (o : option (list A)) : bool :=
  match o with
  | Some l => (1 <=? length l)%nat
  | None => false
  end.

(** [isNumeric()] tests the printed form of the value: a number prints as
    plain digits up to 10^21 and with an exponent from there on. *)
Definition isNumeric (o : option Z) : bool :=
  match o with
  | Some n => Z.abs n <? 10 ^ 21
  | None => false
  end.

Definition validate_recipe (b : RecipeBody) : list string :=
  (check (truthyS (b_title b)) "Title is required"
   ++ check (truthyS (b_description b)) "Description is required"
   ++ check (isArrayMin1 (b_ingredients b)) "At least one ingredient is required"
   ++ check (isArrayMin1 (b_instructions b)) "At least one instruction is required"
   ++ check (isNumeric (b_cookingTime b)) "Cooking time is required"
   ++ check (isNumeric (b_servings b)) "Number of servings is required")%list.

(** POST /api/recipes.  [newId] is the [_id] that [new Recipe(..)] draws,
    [now] the value of [Date.now]. *)
Definition recipes_post (newId : ObjectId) (now : N) (uid : string) (b : RecipeBody)
  : DB -> response * DB :=
  match validate_recipe b with
  | (_ :: _) as errors => fun db => ({| status := 400; body := Errors errors |}, db)
  | [] =>
    try_catch (
      let recipeFields :=
        {| f_user := Some uid;
           f_title := b_title b;
           f_description := b_description b;
           f_ingredients := b_ingredients b;
           f_instructions := b_instructions b;
           f_cookingTime := b_cookingTime b;
           f_servings := b_servings b;
           f_image := pick truthyS (b_image b);
           f_tags := pick truthyA (b_tags b);
           f_parentRecipe := None;
           f_isForked := None;
           f_modifications := None |} in
      recipeFields <-
        (match pick truthyS (b_parentRecipe b) with
         | Some parentRecipe =>
             originalRecipe <- findById recipes parentRecipe ;;
             match originalRecipe with
             | None => reply 404 (Msg "Parent recipe not found")
             | Some (p, _) =>
                 ret {| f_user := f_user recipeFields;
                        f_title := f_title recipeFields;
                        f_description := f_description recipeFields;
                        f_ingredients := f_ingredients recipeFields;
                        f_instructions := f_instructions recipeFields;
                        f_cookingTime := f_cookingTime recipeFields;
                        f_servings := f_servings recipeFields;
                        f_image := f_image recipeFields;
                        f_tags := f_tags recipeFields;
                        f_parentRecipe := Some p;
                        f_isForked := Some true;
                        f_modifications := pick truthyS (b_modifications b) |}
             end
         | None => ret recipeFields
         end) ;;
      recipe <- new_Recipe now recipeFields ;;
      Recipe_insert newId recipe ;;;
      res_json (RecipeDoc newId recipe))
    catch_500
  end.

(** PUT /api/recipes/:id *)
Definition recipes_put (id : string) (uid : string) (b : RecipeBody)
  : DB -> response * DB :=
  try_catch (
    recipe <- findById recipes id ;;
    match recipe with
    | None => reply 404 (Msg "Recipe not found")
    | Some (_, recipe) =>
      if negb (String.eqb (toString (Recipe.user recipe)) uid)
      then reply 401 (Msg "User not authorized")
      else
        let recipeFields :=
          {| f_user := None;
             f_title := pick truthyS (b_title b);
             f_description := pick truthyS (b_description b);
             f_ingredients := pick truthyA (b_ingredients b);
             f_instructions := pick truthyA (b_instructions b);
             f_cookingTime := pick truthyN (b_cookingTime b);
             f_servings := pick truthyN (b_servings b);
             f_image := pick truthyS (b_image b);
             f_tags := pick truthyA (b_tags b);
             f_parentRecipe := None;
             f_isForked := None;
             f_modifications := None |} in
        recipe <- Recipe_findByIdAndUpdate id recipeFields ;;
        match recipe with
        | Some (k, r) => res_json (RecipeDoc k r)
        | None => res_json Null
        end
    end)
  catch_500.

(** DELETE /api/recipes/:id *)
Definition recipes_delete (id : string) (uid : string) : DB -> response * DB :=
  try_catch (
    recipe <- findById recipes id ;;
    match recipe with
    | None => reply 404 (Msg "Recipe not found")
    | Some (k, recipe) =>
      if negb (String.eqb (toString (Recipe.user recipe)) uid)
      then reply 401 (Msg "User not authorized")
      else
        Recipe_deleteOne k ;;;
        Comment_deleteMany_recipe id ;;;
        res_json (Msg "Recipe removed")
    end)
  (catch_ObjectId "Recipe not found").

(** [a || b] on strings *)
Definition or_else (a : option string) (b : string) : string :=
  match pick truthyS a with
  | Some s => s
  | None => b
  end.

(** POST /api/recipes/:id/fork *)
Definition recipes_fork (newId : ObjectId) (now : N) (id : string) (uid : string)
    (b : RecipeBody) : DB -> response * DB :=
  try_catch (
    originalRecipe <- findById recipes id ;;
    match originalRecipe with
    | None => reply 404 (Msg "Recipe not found")
    | Some (_id, originalRecipe) =>
      newRecipe <- new_Recipe now
        {| f_user := Some uid;
           f_title := Some (Recipe.title originalRecipe);
           f_description := Some (Recipe.description originalRecipe);
           f_ingredients := Some (Recipe.ingredients originalRecipe);
           f_instructions := Some (Recipe.instructions originalRecipe);
           f_cookingTime := Some (Recipe.cookingTime originalRecipe);
           f_servings := Some (Recipe.servings originalRecipe);
           f_image := Recipe.image originalRecipe;
           f_tags := Some (Recipe.tags originalRecipe);
           f_parentRecipe := Some _id;
           f_isForked := Some true;
           f_modifications := Some (or_else (b_modifications b) "Forked recipe") |} ;;
      Recipe_insert newId newRecipe ;;;
      res_json (RecipeDoc newId newRecipe)
    end)
  catch_500.

(** POST /api/recipes/:id/image; [file] is [req.file.filename] when the
    upload middleware stored a file. *)
Definition recipes_image (id : string) (uid : string) (file : option string)
  : DB -> response * DB :=
  try_catch (
    recipe <- findById recipes id ;;
    match recipe with
    | None => reply 404 (Msg "Recipe not found")
    | Some (k, recipe) =>
      if negb (String.eqb (toString (Recipe.user recipe)) uid)
      then reply 401 (Msg "User not authorized")
      else
        match file with
        | None => reply 400 (Msg "No file uploaded")
        | Some filename =>
          let recipe := Recipe.set_image ("/uploads/" ++ filename) recipe in
          Recipe_save k recipe ;;;
          res_json (RecipeDoc k recipe)
        end
    end)
  catch_500.

(** [likes.unshift({ user: uid })]: the new entry is cast to the schema. *)
Definition new_Like (uid : string) : M Like :=
  match castObjectId uid with
  | Some u => ret {| like_user := u |}
  | None => throw ValidationError
  end.

(** PUT /api/recipes/:id/like *)
Definition recipes_like (id : string) (uid : string) : DB -> response * DB :=
  try_catch (
    recipe <- findById recipes id ;;
    match recipe with
    | None => reply 404 (Msg "Recipe not found")
    | Some (k, recipe) =>
      if existsb (fun like => String.eqb (toString (like_user like)) uid) (Recipe.likes recipe)
      then reply 400 (Msg "Recipe already liked")
      else
        like <- new_Like uid ;;
        let recipe := Recipe.set_likes (like :: Recipe.likes recipe) recipe in
        Recipe_save k recipe ;;;
        res_json (Likes (Recipe.likes recipe))
    end)
  catch_500.

(** PUT /api/recipes/:id/unlike *)
Definition recipes_unlike (id : string) (uid : string) : DB -> response * DB :=
  try_catch (
    recipe <- findById recipes id ;;
    match recipe with
    | None => reply 404 (Msg "Recipe not found")
    | Some (k, recipe) =>
      if negb (existsb (fun like => String.eqb (toString (like_user like)) uid)
                 (Recipe.likes recipe))
      then reply 400 (Msg "Recipe has not yet been liked")
      else
        let recipe :=
          Recipe.set_likes
            (List.filter (fun like => negb (String.eqb (toString (like_user like)) uid))
               (Recipe.likes recipe))
            recipe in
        Recipe_save k recipe ;;;
        res_json (Likes (Recipe.likes recipe))
    end)
  catch_500.

(** ** Comments (routes/comments.js) *)

Definition validate_text (text : option string) : list string :=
  check (truthyS text) "Text is required".

(** POST /api/comments/:recipeId *)
Definition comments_post (newId : ObjectId) (now : N) (recipeId : string)
    (uid : string) (text : option string) : DB -> response * DB :=
  match validate_text text with
  | (_ :: _) as errors => fun db => ({| status := 400; body := Errors errors |}, db)
  | [] =>
    try_catch (
      user <- findById users uid ;;
      recipe <- findById recipes recipeId ;;
      match recipe with
      | None => reply 404 (Msg "Recipe not found")
      | Some (r, _) =>
        match user, text with
        | None, _ => throw TypeError
        | Some _, None => throw ValidationError
        | Some (u, user), Some text =>
          let newComment :=
            {| Comment.text := text;
               Comment.name := User.name user;
               Comment.avatar := User.avatar user;
               Comment.user := u;
               Comment.recipe := r;
               Comment.likes := [];
               Comment.date := now |} in
          Comment_insert newId newComment ;;;
          res_json (CommentDoc newId newComment)
        end
      end)
    catch_500
  end.

(** GET /api/comments/:recipeId/:commentId *)
Definition comments_get (recipeId commentId : string) : DB -> response * DB :=
  try_catch (
    comment <- findById comments commentId ;;
    match comment with
    | None => reply 404 (Msg "Comment not found")
    | Some (k, comment) =>
      if negb (String.eqb (toString (Comment.recipe comment)) recipeId)
      then reply 400 (Msg "Comment does not belong to this recipe")
      else
        user <- (fun db => (Val (users db !! Comment.user comment), db)) ;;
        res_json (CommentPopulated k comment user)
    end)
  (catch_ObjectId "Comment not found").

(** PUT /api/comments/:recipeId/:commentId *)
Definition comments_put (recipeId commentId : string) (uid : string)
    (text : option string) : DB -> response * DB :=
  match validate_text text with
  | (_ :: _) as errors => fun db => ({| status := 400; body := Errors errors |}, db)
  | [] =>
    try_catch (
      comment <- findById comments commentId ;;
      match comment with
      | None => reply 404 (Msg "Comment not found")
      | Some (k, comment) =>
        if negb (String.eqb (toString (Comment.recipe comment)) recipeId)
        then reply 400 (Msg "Comment does not belong to this recipe")
        else if negb (String.eqb (toString (Comment.user comment)) uid)
        then reply 401 (Msg "User not authorized")
        else
          match text with
          | None => throw ValidationError
          | Some text =>
            let comment := Comment.set_text text comment in
            Comment_save k comment ;;;
            res_json (CommentDoc k comment)
          end
      end)
    catch_500
  end.

(** DELETE /api/comments/:recipeId/:commentId *)
Definition comments_delete (recipeId commentId : string) (uid : string)
  : DB -> response * DB :=
  try_catch (
    comment <- findById comments commentId ;;
    recipe <- findById recipes recipeId ;;
    match comment, recipe with
    | None, _ => reply 404 (Msg "Comment not found")
    | Some _, None => reply 404 (Msg "Recipe not found")
    | Some (k, comment), Some (_, recipe) =>
      if negb (String.eqb (toString (Comment.recipe comment)) recipeId)
      then reply 400 (Msg "Comment does not belong to this recipe")
      else if (negb (String.eqb (toString (Comment.user comment)) uid)
               && negb (String.eqb (toString (Recipe.user recipe)) uid))%bool
      then reply 401 (Msg "User not authorized")
      else
        Comment_deleteOne k ;;;
        res_json (Msg "Comment removed")
    end)
  (catch_ObjectId "Comment not found").

(** PUT /api/comments/:recipeId/:commentId/like *)
Definition comments_like (recipeId commentId : string) (uid : string)
  : DB -> response * DB :=
  try_catch (
    comment <- findById comments commentId ;;
    match comment with
    | None => reply 404 (Msg "Comment not found")
    | Some (k, comment) =>
      if negb (String.eqb (toString (Comment.recipe comment)) recipeId)
      then reply 400 (Msg "Comment does not belong to this recipe")
      else if existsb (fun like => String.eqb (toString (like_user like)) uid)
                (Comment.likes comment)
      then reply 400 (Msg "Comment already liked")
      else
        like <- new_Like uid ;;
        let comment := Comment.set_likes (like :: Comment.likes comment) comment in
        Comment_save k comment ;;;
        res_json (Likes (Comment.likes comment))
    end)
  catch_500.

(** PUT /api/comments/:recipeId/:commentId/unlike *)
Definition comments_unlike (recipeId commentId : string) (uid : string)
  : DB -> response * DB :=
  try_catch (
    comment <- findById comments commentId ;;
    match comment with
    | None => reply 404 (Msg "Comment not found")
    | Some (k, comment) =>
      if negb (String.eqb (toString (Comment.recipe comment)) recipeId)
      then reply 400 (Msg "Comment does not belong to this recipe")
      else if negb (existsb (fun like => String.eqb (toString (like_user like)) uid)
                      (Comment.likes comment))
      then reply 400 (Msg "Comment has not yet been liked")
      else
        let comment :=
          Comment.set_likes
            (List.filter (fun like => negb (String.eqb (toString (like_user like)) uid))
               (Comment.likes comment))
            comment in
        Comment_save k comment ;;;
        res_json (Likes (Comment.likes comment))
    end)
  catch_500.

(** ** Folders (routes/folders.js) *)

Record FolderBody := {
  b_name : option string;
  b_folder_description : option string;
  b_isPublic : option bool
}.

(** POST /api/folders *)
Definition folders_post (newId : ObjectId) (now : N) (uid : string) (b : FolderBody)
  : DB -> response * DB :=
  match check (truthyS (b_name b)) "Name is required" with
  | (_ :: _) as errors => fun db => ({| status := 400; body := Errors errors |}, db)
  | [] =>
    try_catch (
      match castObjectId uid, b_name b with
      | Some u, Some name =>
        let newFolder :=
          {| Folder.user := u;
             Folder.name := name;
             Folder.description := b_folder_description b;
             Folder.recipes := [];
             Folder.isPublic := default false (b_isPublic b);
             Folder.date := now |} in
        Folder_insert newId newFolder ;;;
        res_json (FolderDoc newId newFolder)
      | _, _ => throw ValidationError
      end)
    catch_500
  end.

(** [Folder.findByIdAndUpdate(id, { $set: folderFields }, { new: true })];
    the three arguments are the paths of [folderFields]. *)
Definition Folder_findByIdAndUpdate (id : string) (name description : option string)
    (isPublic : option bool) : M (option (ObjectId * Folder.t)) :=
  fun db =>
    match castObjectId id with
    | None => (Throw CastError, db)
    | Some k =>
        match folders db !! k with
        | None => (Val None, db)
        | Some f =>
            let f' :=
              {| Folder.user := Folder.user f;
                 Folder.name := default (Folder.name f) name;
                 Folder.description :=
                   match description with Some d => Some d | None => Folder.description f end;
                 Folder.recipes := Folder.recipes f;
                 Folder.isPublic := default (Folder.isPublic f) isPublic;
                 Folder.date := Folder.date f |} in
            (Val (Some (k, f')),
             with_folders (<[k:=f']> (folders db)) (UpdateOne folders_c k) db)
        end
    end.

(** PUT /api/folders/:id *)
Definition folders_put (id : string) (uid : string) (b : FolderBody)
  : DB -> response * DB :=
  let name := pick truthyS (b_name b) in
  let description := b_folder_description b in
  let isPublic := b_isPublic b in
  try_catch (
    folder <- findById folders id ;;
    match folder with
    | None => reply 404 (Msg "Folder not found")
    | Some (_, folder) =>
      if negb (String.eqb (toString (Folder.user folder)) uid)
      then reply 401 (Msg "User not authorized")
      else
        folder <- Folder_findByIdAndUpdate id name description isPublic ;;
        match folder with
        | Some (k, f) => res_json (FolderDoc k f)
        | None => res_json Null
        end
    end)
  catch_500.

(** DELETE /api/folders/:id *)
Definition folders_delete (id : string) (uid : string) : DB -> response * DB :=
  try_catch (
    folder <- findById folders id ;;
    match folder with
    | None => reply 404 (Msg "Folder not found")
    | Some (k, folder) =>
      if negb (String.eqb (toString (Folder.user folder)) uid)
      then reply 401 (Msg "User not authorized")
      else
        Folder_deleteOne k ;;;
        res_json (Msg "Folder removed")
    end)
  (catch_ObjectId "Folder not found").

(** [array.includes(id)] on an array of ObjectIds and a string *)
Definition includes (l : list ObjectId) (id : string) : bool :=
  existsb (fun r => String.eqb (toString r) id) l.

(** PUT /api/folders/:id/recipes/:recipeId *)
Definition folders_addRecipe (id recipeId : string) (uid : string)
  : DB -> response * DB :=
  try_catch (
    folder <- findById folders id ;;
    recipe <- findById recipes recipeId ;;
    match folder, recipe with
    | None, _ => reply 404 (Msg "Folder not found")
    | Some _, None => reply 404 (Msg "Recipe not found")
    | Some (k, folder), Some (r, _) =>
      if negb (String.eqb (toString (Folder.user folder)) uid)
      then reply 401 (Msg "User not authorized")
      else if includes (Folder.recipes folder) recipeId
      then reply 400 (Msg "Recipe already in folder")
      else
        let folder := Folder.set_recipes (Folder.recipes folder ++ [r]) folder in
        Folder_save k folder ;;;
        res_json (FolderDoc k folder)
    end)
  catch_500.

(** DELETE /api/folders/:id/recipes/:recipeId *)
Definition folders_removeRecipe (id recipeId : string) (uid : string)
  : DB -> response * DB :=
  try_catch (
    folder <- findById folders id ;;
    match folder with
    | None => reply 404 (Msg "Folder not found")
    | Some (k, folder) =>
      if negb (String.eqb (toString (Folder.user folder)) uid)
      then reply 401 (Msg "User not authorized")
      else if negb (includes (Folder.recipes folder) recipeId)
      then reply 400 (Msg "Recipe not in folder")
      else
        let folder :=
          Folder.set_recipes
            (List.filter (fun recipe => negb (String.eqb (toString recipe) recipeId))
               (Folder.recipes folder))
            folder in
        Folder_save k folder ;;;
        res_json (FolderDoc k folder)
    end)
  catch_500.

(** ** The server as a transition system *)

Inductive request :=
  | POST_recipes (newId : ObjectId) (now : N) (uid : string) (b : RecipeBody)
  | PUT_recipes (id uid : string) (b : RecipeBody)
  | DELETE_recipes (id uid : string)
  | POST_recipes_fork (newId : ObjectId) (now : N) (id uid : string) (b : RecipeBody)
  | POST_recipes_image (id uid : string) (file : option string)
  | PUT_recipes_like (id uid : string)
  | PUT_recipes_unlike (id uid : string)
  | POST_comments (newId : ObjectId) (now : N) (recipeId uid : string) (text : option string)
  | GET_comments (recipeId commentId : string)
  | PUT_comments (recipeId commentId uid : string) (text : option string)
  | DELETE_comments (recipeId commentId uid : string)
  | PUT_comments_like (recipeId commentId uid : string)
  | PUT_comments_unlike (recipeId commentId uid : string)
  | POST_folders (newId : ObjectId) (now : N) (uid : string) (b : FolderBody)
  | PUT_folders (id uid : string) (b : FolderBody)
  | DELETE_folders (id uid : string)
  | PUT_folders_recipes (id recipeId uid : string)
  | DELETE_folders_recipes (id recipeId uid : string).

Definition handle (req : request) : DB -> response * DB :=
  match req with
  | POST_recipes newId now uid b => recipes_post newId now uid b
  | PUT_recipes id uid b => recipes_put id uid b
  | DELETE_recipes id uid => recipes_delete id uid
  | POST_recipes_fork newId now id uid b => recipes_fork newId now id uid b
  | POST_recipes_image id uid file => recipes_image id uid file
  | PUT_recipes_like id uid => recipes_like id uid
  | PUT_recipes_unlike id uid => recipes_unlike id uid
  | POST_comments newId now recipeId uid text => comments_post newId now recipeId uid text
  | GET_comments recipeId commentId => comments_get recipeId commentId
  | PUT_comments recipeId commentId uid text => comments_put recipeId commentId uid text
  | DELETE_comments recipeId commentId uid => comments_delete recipeId commentId uid
  | PUT_comments_like recipeId commentId uid => comments_like recipeId commentId uid
  | PUT_comments_unlike recipeId commentId uid => comments_unlike recipeId commentId uid
  | POST_folders newId now uid b => folders_post newId now uid b
  | PUT_folders id uid b => folders_put id uid b
  | DELETE_folders id uid => folders_delete id uid
  | PUT_folders_recipes id recipeId uid => folders_addRecipe id recipeId uid
  | DELETE_folders_recipes id recipeId uid => folders_removeRecipe id recipeId uid
  end.

(** The authenticated user of a request, when the route is private. *)
Definition req_user (req : request) : option string :=
  match req with
  | POST_recipes _ _ uid _ | PUT_recipes _ uid _ | DELETE_recipes _ uid
  | POST_recipes_fork _ _ _ uid _ | POST_recipes_image _ uid _
  | PUT_recipes_like _ uid | PUT_recipes_unlike _ uid
  | POST_comments _ _ _ uid _ | PUT_comments _ _ uid _ | DELETE_comments _ _ uid
  | PUT_comments_like _ _ uid | PUT_comments_unlike _ _ uid
  | POST_folders _ _ uid _ | PUT_folders _ uid _ | DELETE_folders _ uid
  | PUT_folders_recipes _ _ uid | DELETE_folders_recipes _ _ uid => Some uid
  | GET_comments _ _ => None
  end.

(** ** Vocabulary of the specification *)

(** A string that is an ObjectId in the form [toString()] prints. *)
Definition printed (s : string) : Prop := castObjectId s = Some s.

Definition OK (b : json) : response := {| status := 200; body := b |}.
Definition NotFound (what : string) : response :=
  {| status := 404; body := Msg (what ++ " not found") |}.
Definition ReferenceMismatch : response :=
  {| status := 400; body := Msg "Comment does not belong to this recipe" |}.
Definition Forbidden : response :=
  {| status := 401; body := Msg "User not authorized" |}.
Definition ValidationFailed (errors : list string) : response :=
  {| status := 400; body := Errors errors |}.
Definition AlreadyMember : response :=
  {| status := 400; body := Msg "Recipe already in folder" |}.
Definition NotMember : response :=
  {| status := 400; body := Msg "Recipe not in folder" |}.

(** What a like route is addressed to. *)
Inductive entity :=
  | ARecipe (id : string)
  | AComment (recipeId commentId : string).

Definition entity_name (e : entity) : string :=
  match e with
  | ARecipe _ => "Recipe"
  | AComment _ _ => "Comment"
  end.

Definition AlreadyLiked (e : entity) : response :=
  {| status := 400; body := Msg (entity_name e ++ " already liked") |}.
Definition NotYetLiked (e : entity) : response :=
  {| status := 400; body := Msg (entity_name e ++ " has not yet been liked") |}.

Definition like (e : entity) (uid : string) : DB -> response * DB :=
  match e with
  | ARecipe id => recipes_like id uid
  | AComment recipeId commentId => comments_like recipeId commentId uid
  end.

Definition unlike (e : entity) (uid : string) : DB -> response * DB :=
  match e with
  | ARecipe id => recipes_unlike id uid
  | AComment recipeId commentId => comments_unlike recipeId commentId uid
  end.

(** The likes list of the entity a request addresses: the Recipe with that
    id, or the Comment with that id attached to that Recipe. *)
Definition likes_of (e : entity) (db : DB) : option (list Like) :=
  match e with
  | ARecipe id => Recipe.likes <$> recipes db !! id
  | AComment recipeId commentId =>
      c ← comments db !! commentId ;
      if decide (Comment.recipe c = recipeId) then Some (Comment.likes c) else None
  end.

(** The database with the likes list of the addressed entity replaced. *)
Definition store_likes (e : entity) (l : list Like) (db : DB) : DB :=
  match e with
  | ARecipe id =>
      with_recipes (alter (Recipe.set_likes l) id (recipes db)) (UpdateOne recipes_c id) db
  | AComment _ commentId =>
      with_comments (alter (Comment.set_likes l) commentId (comments db))
        (UpdateOne comments_c commentId) db
  end.

Definition entity_printed (e : entity) : Prop :=
  match e with
  | ARecipe id => printed id
  | AComment recipeId commentId => printed commentId
  end.

Definition has_user (uid : string) (l : list Like) : Prop :=
  Exists (fun like => like_user like = uid) l.

Definition unique_likes (l : list Like) : Prop := NoDup (List.map like_user l).

(** A collection keeps its likes unique across a transition: every
    document it holds afterwards has a likes list without a repeated user,
    provided the document it was before (if it was there) had one. *)
Definition recipes_kept (db db' : DB) : Prop :=
  forall k R', recipes db' !! k = Some R' ->
    (forall R, recipes db !! k = Some R -> unique_likes (Recipe.likes R)) ->
    unique_likes (Recipe.likes R').

Definition comments_kept (db db' : DB) : Prop :=
  forall k C', comments db' !! k = Some C' ->
    (forall C, comments db !! k = Some C -> unique_likes (Comment.likes C)) ->
    unique_likes (Comment.likes C').

(** Every stored Recipe and Comment has a likes list without a repeated
    user. *)
Definition all_unique (db : DB) : Prop :=
  (forall k R, recipes db !! k = Some R -> unique_likes (Recipe.likes R))
  /\ (forall k C, comments db !! k = Some C -> unique_likes (Comment.likes C)).

(** The user of a private route is an ObjectId as printed. *)
Definition authenticated (req : request) : Prop :=
  forall uid, req_user req = Some uid -> printed uid.

(** Requests handled one after the other. *)
Fixpoint run (reqs : list request) (db : DB) : DB :=
  match reqs with
  | [] => db
  | req :: reqs => run reqs (snd (handle req db))
  end.

Definition empty_db : DB :=
  {| users := ∅; recipes := ∅; comments := ∅; folders := ∅; oplog := [] |}.

(** ** Sample data *)

Definition alice : ObjectId := "64b7f0a1c2d3e4f5a6b7c8a1".
Definition bob : ObjectId := "64b7f0a1c2d3e4f5a6b7c8b2".
Definition carol : ObjectId := "64b7f0a1c2d3e4f5a6b7c8c3".
Definition soup : ObjectId := "64b7f0a1c2d3e4f5a6b70001".
Definition stew : ObjectId := "64b7f0a1c2d3e4f5a6b70002".
Definition gone : ObjectId := "64b7f0a1c2d3e4f5a6b70009".
Definition fresh1 : ObjectId := "64b7f0a1c2d3e4f5a6b700f1".
Definition note1 : ObjectId := "64b7f0a1c2d3e4f5a6b7c001".
Definition note2 : ObjectId := "64b7f0a1c2d3e4f5a6b7c002".
Definition shelf : ObjectId := "64b7f0a1c2d3e4f5a6b7f001".

Definition soupR : Recipe.t :=
  {| Recipe.user := alice; Recipe.title := "Soup"; Recipe.description := "Warm";
     Recipe.ingredients := [ {| ing_name := "water"; ing_quantity := "1"; ing_unit := Some "l" |} ];
     Recipe.instructions := [ {| ins_step := 1; ins_text := "Boil" |} ];
     Recipe.cookingTime := 20; Recipe.servings := 2; Recipe.image := None;
     Recipe.tags := ["easy"]; Recipe.parentRecipe := None; Recipe.isForked := false;
     Recipe.modifications := None;
     Recipe.likes := [ {| like_user := bob |} ]; Recipe.date := 1000%N |}.

Definition stewR : Recipe.t :=
  {| Recipe.user := bob; Recipe.title := "Stew"; Recipe.description := "Thick";
     Recipe.ingredients := [ {| ing_name := "beef"; ing_quantity := "500"; ing_unit := Some "g" |} ];
     Recipe.instructions := [ {| ins_step := 1; ins_text := "Simmer" |} ];
     Recipe.cookingTime := 90; Recipe.servings := 4; Recipe.image := Some "/uploads/stew.png";
     Recipe.tags := []; Recipe.parentRecipe := None; Recipe.isForked := false;
     Recipe.modifications := None; Recipe.likes := []; Recipe.date := 2000%N |}.

Definition note1C : Comment.t :=
  {| Comment.user := bob; Comment.recipe := soup; Comment.text := "Nice";
     Comment.name := Some "Bob"; Comment.avatar := None;
     Comment.likes := [ {| like_user := carol |} ]; Comment.date := 3000%N |}.

Definition note2C : Comment.t :=
  {| Comment.user := carol; Comment.recipe := stew; Comment.text := "Salty";
     Comment.name := Some "Carol"; Comment.avatar := None;
     Comment.likes := []; Comment.date := 4000%N |}.

Definition shelfF : Folder.t :=
  {| Folder.user := alice; Folder.name := "Favourites"; Folder.description := None;
     Folder.recipes := [stew; gone]; Folder.isPublic := false; Folder.date := 5000%N |}.

Definition db0 : DB :=
  {| users := {[ alice := {| User.name := Some "Alice"; User.avatar := None |};
                 bob := {| User.name := Some "Bob"; User.avatar := None |};
                 carol := {| User.name := Some "Carol"; User.avatar := None |} ]};
     recipes := {[ soup := soupR; stew := stewR ]};
     comments := {[ note1 := note1C; note2 := note2C ]};
     folders := {[ shelf := shelfF ]};
     oplog := [] |}.

Definition no_body : RecipeBody :=
  {| b_title := None; b_description := None; b_ingredients := None;
     b_instructions := None; b_cookingTime := None; b_servings := None;
     b_image := None; b_tags := None; b_parentRecipe := None;
     b_modifications := None |}.


Definition soup_body : RecipeBody :=
  {| b_title := Some "Soup"; b_description := Some "Warm";
     b_ingredients := Some [ {| ing_name := "water"; ing_quantity := "1"; ing_unit := None |} ];
     b_instructions := Some [ {| ins_step := 1; ins_text := "Boil" |} ];
     b_cookingTime := Some 20; b_servings := Some 2;
     b_image := None; b_tags := None;
     b_parentRecipe := Some stew; b_modifications := None |}.

(** [merge_patch truthy new old result]: [result] is the new value when
    one was sent and is truthy, and the old value otherwise. *)
Definition merge_patch {A} (truthy : option A -> bool) (new : option A)
    (old result : A) : Prop :=
  (forall v, new = Some v -> truthy new = true -> result = v)
  /\ (truthy new = false -> result = old).

Definition with_title (t : option string) (b : RecipeBody) : RecipeBody :=
  {| b_title := t; b_description := b_description b;
     b_ingredients := b_ingredients b; b_instructions := b_instructions b;
     b_cookingTime := b_cookingTime b; b_servings := b_servings b;
     b_image := b_image b; b_tags := b_tags b;
     b_parentRecipe := b_parentRecipe b; b_modifications := b_modifications b |}.

(** ** Reading routes (the GET handlers of the three routers)

    What a reading route answers: one of the bodies above, or a document
    or a list of documents with the paths that [populate] filled in.  A
    populated reference that does not resolve is [null] ([None]); in a
    populated array it is left out. *)

Record RecipeCard := {
  card_title : string;
  card_description : string;
  card_image : option string;
  card_date : N;
  card_user : option User.t
}.

Inductive page :=
  | Plain (b : json)
  | RecipePopulated (id : ObjectId) (r : Recipe.t) (user : option User.t)
      (parentRecipe : option (ObjectId * Recipe.t))
  | RecipeList (l : list (ObjectId * Recipe.t * option User.t))
  | CommentList (l : list (ObjectId * Comment.t * option User.t))
  | FolderList (l : list (ObjectId * Folder.t))
  | FolderPublicList (l : list (ObjectId * Folder.t * option User.t))
  | FolderPopulated (id : ObjectId) (f : Folder.t) (recipes : list (ObjectId * RecipeCard)).

Record answer := { code : nat; content : page }.

Definition plain (r : response) : answer :=
  {| code := status r; content := Plain (body r) |}.

(** [{ date: -1 }]: the later document comes first. *)
Definition newest_first {D} (date : D -> N) (a b : ObjectId * D) : Prop :=
  (date b.2 <= date a.2)%N.

#[global] Instance newest_first_dec {D} (date : D -> N) (a b : ObjectId * D) :
  Decision (newest_first date a b).
Proof. unfold newest_first. apply _. Defined.

(** [Model.find(filter).sort({ date: -1 })]; the order among documents of
    the same date is the store's. *)
Definition Model_find {D} (coll : DB -> gmap string D) (filter : D -> bool)
    (date : D -> N) (db : DB) : list (ObjectId * D) :=
  merge_sort (newest_first date)
    (List.filter (fun kd => filter kd.2) (map_to_list (coll db))).

(** [.populate('user', ['name', 'avatar'])] on a list of documents *)
Definition populate_user {D} (user : D -> ObjectId) (db : DB)
    (kd : ObjectId * D) : ObjectId * D * option User.t :=
  (kd, users db !! user kd.2).

(** GET /api/recipes *)
Definition recipes_list (db : DB) : answer :=
  let recipes := Model_find recipes (fun _ => true) Recipe.date db in
  {| code := 200; content := RecipeList (populate_user Recipe.user db <$> recipes) |}.

(** GET /api/recipes/:id *)
Definition recipes_get (id : string) (db : DB) : answer :=
  match fst (findById recipes id db) with
  | Val None => plain {| status := 404; body := Msg "Recipe not found" |}
  | Val (Some (k, recipe)) =>
      {| code := 200;
         content :=
           RecipePopulated k recipe (users db !! Recipe.user recipe)
             (p ← Recipe.parentRecipe recipe; pair p <$> recipes db !! p) |}
  | Return r => plain r
  | Throw e => plain (catch_ObjectId "Recipe not found" e)
  end.

(** GET /api/recipes/user/:userId *)
Definition recipes_by_user (userId : string) (db : DB) : answer :=
  match castObjectId userId with
  | None => plain (catch_500 CastError)
  | Some u =>
      let recipes :=
        Model_find recipes (fun r => String.eqb (toString (Recipe.user r)) u) Recipe.date db in
      {| code := 200; content := RecipeList (populate_user Recipe.user db <$> recipes) |}
  end.

(** GET /api/comments/:recipeId *)
Definition comments_list (recipeId : string) (db : DB) : answer :=
  match fst (findById recipes recipeId db) with
  | Val None => plain {| status := 404; body := Msg "Recipe not found" |}
  | Val (Some (r, _)) =>
      let comments :=
        Model_find comments (fun c => String.eqb (toString (Comment.recipe c)) r)
          Comment.date db in
      {| code := 200; content := CommentList (populate_user Comment.user db <$> comments) |}
  | Return r => plain r
  | Throw e => plain (catch_500 e)
  end.

(** GET /api/folders *)
Definition folders_list (uid : string) (db : DB) : answer :=
  match castObjectId uid with
  | None => plain (catch_500 CastError)
  | Some u =>
      let folders :=
        Model_find folders (fun f => String.eqb (toString (Folder.user f)) u) Folder.date db in
      {| code := 200; content := FolderList folders |}
  end.

(** [populate({ path: 'recipes', select: 'title description image date',
    populate: { path: 'user', select: 'name avatar' } })] *)
Definition populate_recipes (db : DB) (l : list ObjectId) : list (ObjectId * RecipeCard) :=
  omap (fun r =>
          (fun R => (r, {| card_title := Recipe.title R;
                           card_description := Recipe.description R;
                           card_image := Recipe.image R;
                           card_date := Recipe.date R;
                           card_user := users db !! Recipe.user R |}))
          <$> recipes db !! r) l.

(** GET /api/folders/:id *)
Definition folders_get (id : string) (uid : string) (db : DB) : answer :=
  match fst (findById folders id db) with
  | Val None => plain {| status := 404; body := Msg "Folder not found" |}
  | Val (Some (k, folder)) =>
      if (negb (String.eqb (toString (Folder.user folder)) uid)
          && negb (Folder.isPublic folder))%bool
      then plain {| status := 401; body := Msg "Not authorized to view this folder" |}
      else
        {| code := 200;
           content := FolderPopulated k folder (populate_recipes db (Folder.recipes folder)) |}
  | Return r => plain r
  | Throw e => plain (catch_ObjectId "Folder not found" e)
  end.

(** GET /api/folders/public/all *)
Definition folders_public (db : DB) : answer :=
  let folders := Model_find folders Folder.isPublic Folder.date db in
  {| code := 200; content := FolderPublicList (populate_user Folder.user db <$> folders) |}.

(** The router a request is served by, named by the collection of its
    model. *)
Definition router (req : request) : collection :=
  match req with
  | POST_recipes _ _ _ _ | PUT_recipes _ _ _ | DELETE_recipes _ _
  | POST_recipes_fork _ _ _ _ _ | POST_recipes_image _ _ _
  | PUT_recipes_like _ _ | PUT_recipes_unlike _ _ => recipes_c
  | POST_comments _ _ _ _ _ | GET_comments _ _ | PUT_comments _ _ _ _
  | DELETE_comments _ _ _ | PUT_comments_like _ _ _ | PUT_comments_unlike _ _ _ => comments_c
  | POST_folders _ _ _ _ | PUT_folders _ _ _ | DELETE_folders _ _
  | PUT_folders_recipes _ _ _ | DELETE_folders_recipes _ _ _ => folders_c
  end.

(** ** Invariants of the stored documents *)

(** The paths of a Recipe that no route assigns after creation. *)
Definition recipe_fixed (R R' : Recipe.t) : Prop :=
  Recipe.user R' = Recipe.user R
  /\ Recipe.parentRecipe R' = Recipe.parentRecipe R
  /\ Recipe.isForked R' = Recipe.isForked R
  /\ Recipe.modifications R' = Recipe.modifications R
  /\ Recipe.date R' = Recipe.date R.

Definition comment_fixed (C C' : Comment.t) : Prop :=
  Comment.user C' = Comment.user C
  /\ Comment.recipe C' = Comment.recipe C
  /\ Comment.name C' = Comment.name C
  /\ Comment.avatar C' = Comment.avatar C
  /\ Comment.date C' = Comment.date C.

Definition folder_fixed (F F' : Folder.t) : Prop :=
  Folder.user F' = Folder.user F /\ Folder.date F' = Folder.date F.

(** [isForked] is true exactly when [parentRecipe] is set. *)
Definition fork_flags (R : Recipe.t) : Prop :=
  Recipe.isForked R = true <-> is_Some (Recipe.parentRecipe R).

(** Every Comment is attached to a Recipe that is stored. *)
Definition no_orphans (db : DB) : Prop :=
  forall c C, comments db !! c = Some C -> is_Some (recipes db !! Comment.recipe C).

(** No Folder lists a Recipe twice. *)
Definition folder_members_unique (db : DB) : Prop :=
  forall k F, folders db !! k = Some F -> NoDup (Folder.recipes F).

(** The recipeId of an add-to-folder path is an ObjectId as printed. *)
Definition printed_member (req : request) : Prop :=
  match req with
  | PUT_folders_recipes _ recipeId _ => printed recipeId
  | _ => True
  end.

(** A populated listing is in the order of [{ date: -1 }] and holds no
    document twice. *)
Definition listed {D} (date : D -> N) (l : list (ObjectId * D * option User.t)) : Prop :=
  StronglySorted (fun a b => (date b.1.2 <= date a.1.2)%N) l /\ NoDup (l.*1.*1).

(** More sample data. *)
Definition plain_body : RecipeBody :=
  {| b_title := Some "Salad"; b_description := Some "Green";
     b_ingredients := Some [ {| ing_name := "leaf"; ing_quantity := "10"; ing_unit := None |} ];
     b_instructions := Some [ {| ins_step := 1; ins_text := "Toss" |} ];
     b_cookingTime := Some 5; b_servings := Some 1;
     b_image := None; b_tags := None;
     b_parentRecipe := None; b_modifications := Some "ignored" |}.

Definition fresh2 : ObjectId := "64b7f0a1c2d3e4f5a6b700f2".

Definition rename_body : FolderBody :=
  {| b_name := Some "Best"; b_folder_description := Some ""; b_isPublic := Some false |}.

(** ** Schema validity in the statements *)

(** The ingredients and instructions of a payload pass the validators that
    [save()] will run on them. *)
Definition schema_ok_body (b : RecipeBody) : Prop :=
  (forall l, b_ingredients b = Some l -> forallb validate_ingredient l = true)
  /\ (forall l, b_instructions b = Some l -> forallb validate_instruction l = true).

(** The addressed entity passes its schema when it is saved again: for a
    Recipe this can fail, through an empty ingredient or instruction field
    that an update has stored. *)
Definition passes_schema (e : entity) (db : DB) : Prop :=
  match e with
  | ARecipe id => forall R, recipes db !! id = Some R -> Recipe_validate R = true
  | AComment _ id => forall C, comments db !! id = Some C -> Comment_validate C = true
  end.

(** The soup's id as a client may write it: the same ObjectId, in upper
    case. *)
Definition SOUP : string := "64B7F0A1C2D3E4F5A6B70001".

(** An update that stores an ingredient without a name. *)
Definition nameless_body : RecipeBody :=
  {| b_title := None; b_description := None;
     b_ingredients := Some [ {| ing_name := ""; ing_quantity := "1"; ing_unit := None |} ];
     b_instructions := None; b_cookingTime := None; b_servings := None;
     b_image := None; b_tags := None; b_parentRecipe := None;
     b_modifications := None |}.

(** The sample database after the owner of the soup has sent that update. *)
Definition db_nameless : DB := snd (recipes_put soup alice nameless_body db0).


(** * Properties *)

(** Case analysis on the next test the handler makes. *)
Ltac branch :=
  match goal with
  | |- context [match ?x with _ => _ end] =>
      lazymatch x with
      | context [match _ with _ => _ end] => fail
      | _ => destruct x eqn:?
      end
  end.


Lemma eqb_toString_true (o : ObjectId) (s : string) :
  String.eqb (toString o) s = true <-> o = s.
Proof. unfold toString. apply String.eqb_eq. Qed.

Lemma eqb_toString_false (o : ObjectId) (s : string) :
  String.eqb (toString o) s = false <-> o <> s.
Proof. unfold toString. apply String.eqb_neq. Qed.

Lemma findById_found {D} (coll : DB -> gmap string D) id k d db :
  castObjectId id = Some k -> coll db !! k = Some d ->
  findById coll id db = (Val (Some (k, d)), db).
Proof. intros Hc Hl. unfold findById. rewrite Hc, Hl. reflexivity. Qed.

Lemma findById_missing {D} (coll : DB -> gmap string D) id k db :
  castObjectId id = Some k -> coll db !! k = None ->
  findById coll id db = (Val None, db).
Proof. intros Hc Hl. unfold findById. rewrite Hc, Hl. reflexivity. Qed.

Lemma validate_recipe_ok (b : RecipeBody) :
  validate_recipe b = [] <->
  exists t d i s c v,
    b_title b = Some t /\ t <> "" /\ b_description b = Some d /\ d <> ""
    /\ b_ingredients b = Some i /\ i <> [] /\ b_instructions b = Some s /\ s <> []
    /\ b_cookingTime b = Some c /\ Z.abs c < 10 ^ 21
    /\ b_servings b = Some v /\ Z.abs v < 10 ^ 21.
Proof.
  unfold validate_recipe, check, truthyS, isArrayMin1, isNumeric. split.
  - destruct (b_title b) as [t|]; [|discriminate].
    destruct (String.eqb t "") eqn:Et; [discriminate|].
    destruct (b_description b) as [d|]; [|discriminate].
    destruct (String.eqb d "") eqn:Ed; [discriminate|].
    destruct (b_ingredients b) as [[|i0 i]|]; [discriminate| |discriminate].
    destruct (b_instructions b) as [[|s0 s]|]; [discriminate| |discriminate].
    destruct (b_cookingTime b) as [c|]; [|discriminate].
    destruct (Z.abs c <? 10 ^ 21) eqn:Ec; [|discriminate].
    destruct (b_servings b) as [v|]; [|discriminate].
    destruct (Z.abs v <? 10 ^ 21) eqn:Ev; [|discriminate].
    intros _. apply String.eqb_neq in Et, Ed. apply Z.ltb_lt in Ec, Ev.
    exists t, d, (i0 :: i), (s0 :: s), c, v. repeat split; auto; discriminate.
  - intros (t & d & i & s & c & v
            & -> & Ht & -> & Hd & -> & Hi & -> & Hs & -> & Hc & -> & Hv).
    apply String.eqb_neq in Ht, Hd. rewrite Ht, Hd.
    apply Z.ltb_lt in Hc, Hv. rewrite Hc, Hv.
    destruct i; [contradiction|]. destruct s; [contradiction|]. reflexivity.
Qed.

Lemma Recipe_validate_true (r : Recipe.t) :
  Recipe.title r <> "" ->
  Recipe.description r <> "" ->
  forallb validate_ingredient (Recipe.ingredients r) = true ->
  forallb validate_instruction (Recipe.instructions r) = true ->
  Recipe_validate r = true.
Proof.
  intros Ht Hd Hi Hs. unfold Recipe_validate, required.
  apply String.eqb_neq in Ht, Hd. rewrite Ht, Hd, Hi, Hs. reflexivity.
Qed.

(** ** Cascade delete *)

(** C1. DELETE /api/recipes/:id by the owner of Recipe R answers 200,
    removes R and nothing else from the recipes, then removes exactly the
    Comments whose [recipe] is R's id: a Comment on R is gone, a Comment on
    another Recipe is still there with the same contents, and no Comment
    appears.  Users and folders are untouched, and the journal shows the
    two writes in this order: the Recipe first, the Comments second. *)
Theorem recipes_delete_cascade (db : DB) (id : string) (k : ObjectId)
    (R : Recipe.t) (uid : string) :
  castObjectId id = Some k ->
  recipes db !! k = Some R ->
  toString (Recipe.user R) = uid ->
  exists db',
    recipes_delete id uid db = (OK (Msg "Recipe removed"), db')
    /\ recipes db' = delete k (recipes db)
    /\ (forall c C, comments db !! c = Some C -> Comment.recipe C = k ->
          comments db' !! c = None)
    /\ (forall c C, comments db !! c = Some C -> Comment.recipe C <> k ->
          comments db' !! c = Some C)
    /\ (forall c, comments db !! c = None -> comments db' !! c = None)
    /\ users db' = users db
    /\ folders db' = folders db
    /\ oplog db' =
         (oplog db ++ [DeleteOne recipes_c k; DeleteMany comments_c "recipe" k])%list.
Proof.
  intros Hcast Hfind Hown.
  unfold recipes_delete, try_catch, bind.
  rewrite (findById_found recipes id k R db Hcast Hfind).
  rewrite (proj2 (eqb_toString_true (Recipe.user R) uid) Hown). simpl.
  unfold Comment_deleteMany_recipe. rewrite Hcast. simpl.
  eexists. split; [reflexivity|]. simpl.
  repeat split.
  - intros c C Hc Hk. apply map_lookup_filter_None. right.
    intros C' HC' Hne. simpl in Hne. congruence.
  - intros c C Hc Hk. apply map_lookup_filter_Some. split; [exact Hc | exact Hk].
  - intros c Hc. apply map_lookup_filter_None. left. exact Hc.
  - rewrite <- app_assoc. reflexivity.
Qed.

Lemma recipes_delete_cascade_witness :
  exists db',
    recipes_delete soup alice db0 = (OK (Msg "Recipe removed"), db')
    /\ recipes db' = delete soup (recipes db0)
    /\ (forall c C, comments db0 !! c = Some C -> Comment.recipe C = soup ->
          comments db' !! c = None)
    /\ (forall c C, comments db0 !! c = Some C -> Comment.recipe C <> soup ->
          comments db' !! c = Some C)
    /\ (forall c, comments db0 !! c = None -> comments db' !! c = None)
    /\ users db' = users db0
    /\ folders db' = folders db0
    /\ oplog db' =
         (oplog db0 ++ [DeleteOne recipes_c soup; DeleteMany comments_c "recipe" soup])%list.
Proof.
  apply (recipes_delete_cascade db0 soup soup soupR alice); reflexivity.
Defined.

(** ** Fork *)

Lemma Recipe_validate_ext (r r' : Recipe.t) :
  Recipe.title r = Recipe.title r' ->
  Recipe.description r = Recipe.description r' ->
  Recipe.ingredients r = Recipe.ingredients r' ->
  Recipe.instructions r = Recipe.instructions r' ->
  Recipe_validate r = Recipe_validate r'.
Proof. intros Ht Hd Hi Hs. unfold Recipe_validate. rewrite Ht, Hd, Hi, Hs. reflexivity. Qed.

Lemma castObjectId_truthy (s : string) (k : ObjectId) :
  castObjectId s = Some k -> pick truthyS (Some s) = Some s.
Proof.
  destruct s as [|a s]; [discriminate|]. reflexivity.
Qed.


Lemma or_else_falsy (a : option string) (b : string) :
  truthyS a = false -> or_else a b = b.
Proof. intros H. unfold or_else, pick. rewrite H. reflexivity. Qed.




(** C10.  POST /api/recipes with a payload whose [parentRecipe] resolves
    to an existing Recipe and which carries no [modifications] text:
    whenever the request creates a Recipe, that Recipe has [isForked] =
    true, [parentRecipe] set, and its [modifications] left unset; it does
    create one when the payload passes the route's checks and the schema's
    validators; and the same request sent to the fork route of that Recipe
    stores the placeholder "Forked recipe". *)
Theorem recipes_post_as_fork (db : DB) (newId : ObjectId) (now : N) (uid : string)
    (b : RecipeBody) (p : string) (k : ObjectId) (P : Recipe.t) :
  b_parentRecipe b = Some p ->
  castObjectId p = Some k ->
  recipes db !! k = Some P ->
  truthyS (b_modifications b) = false ->
  (forall created new db',
     recipes_post newId now uid b db = (OK (RecipeDoc created new), db') ->
     created = newId
     /\ recipes db' = <[newId:=new]> (recipes db)
     /\ Recipe.isForked new = true
     /\ Recipe.parentRecipe new = Some k
     /\ Recipe.modifications new = None)
  /\ (validate_recipe b = [] -> schema_ok_body b -> printed uid ->
      recipes db !! newId = None ->
      exists new,
        recipes_post newId now uid b db
          = (OK (RecipeDoc newId new),
             with_recipes (<[newId:=new]> (recipes db)) (InsertOne recipes_c newId) db))
  /\ (Recipe_validate P = true -> printed uid -> recipes db !! newId = None ->
      exists forked,
        recipes_fork newId now p uid b db
          = (OK (RecipeDoc newId forked),
             with_recipes (<[newId:=forked]> (recipes db)) (InsertOne recipes_c newId) db)
        /\ Recipe.modifications forked = Some "Forked recipe").
Proof.
  intros Hparent Hcast Hfind Hmod.
  assert (Hpick : pick truthyS (b_modifications b) = None)
    by (unfold pick; rewrite Hmod; reflexivity).
  split; [|split].
  - intros created new db'. unfold recipes_post.
    destruct (validate_recipe b); [|discriminate].
    unfold try_catch, bind. rewrite Hparent.
    rewrite (castObjectId_truthy p k Hcast).
    rewrite (findById_found recipes p k P db Hcast Hfind).
    unfold ret, new_Recipe, Recipe_insert, throw, reply, res_json, catch_500.
    simpl. rewrite Hpick.
    repeat (branch; simpl); intros Hrun; try discriminate Hrun.
    injection Hrun as <- <- <-. simpl. repeat split.
  - intros Hvalid [Hi Hs] Huid Hfresh.
    unfold recipes_post. rewrite Hvalid.
    apply validate_recipe_ok in Hvalid
      as (t & d & i & s & c & v & Et & Ht & Ed & Hd & Ei & _ & Es & _ & Ec & _ & Ev & _).
    unfold try_catch, bind. rewrite Hparent.
    rewrite (castObjectId_truthy p k Hcast).
    rewrite (findById_found recipes p k P db Hcast Hfind).
    unfold new_Recipe, ret. simpl. rewrite Huid, Et, Ed, Ec, Ev. simpl.
    rewrite Recipe_validate_true;
      [| exact Ht | exact Hd | simpl; rewrite Ei; apply (Hi i Ei)
       | simpl; rewrite Es; apply (Hs s Es)].
    simpl. unfold Recipe_insert. rewrite Hfresh. simpl.
    eexists. reflexivity.
  - intros Hvalid Huid Hfresh.
    unfold recipes_fork, try_catch, bind.
    rewrite (findById_found recipes p k P db Hcast Hfind).
    unfold new_Recipe. simpl. rewrite Huid. simpl.
    rewrite (Recipe_validate_ext _ P) by reflexivity. rewrite Hvalid.
    unfold ret, Recipe_insert. rewrite Hfresh. simpl.
    eexists. split; [reflexivity|]. simpl.
    f_equal. apply or_else_falsy. exact Hmod.
Qed.

Lemma recipes_post_as_fork_witness :
  exists new forked,
    recipes_post fresh1 7%N carol soup_body db0
      = (OK (RecipeDoc fresh1 new),
         with_recipes (<[fresh1:=new]> (recipes db0)) (InsertOne recipes_c fresh1) db0)
    /\ Recipe.isForked new = true
    /\ Recipe.parentRecipe new = Some stew
    /\ Recipe.modifications new = None
    /\ recipes_fork fresh1 7%N stew carol soup_body db0
      = (OK (RecipeDoc fresh1 forked),
         with_recipes (<[fresh1:=forked]> (recipes db0)) (InsertOne recipes_c fresh1) db0)
    /\ Recipe.modifications forked = Some "Forked recipe".
Proof.
  destruct (recipes_post_as_fork db0 fresh1 7%N carol soup_body stew stew stewR)
    as (Hany & Hpost & Hfork); try reflexivity.
  destruct Hpost as (new & Hrun); try reflexivity.
  { split; intros l H; injection H as <-; reflexivity. }
  destruct Hfork as (forked & Hrun' & Hm); try reflexivity.
  destruct (Hany fresh1 new _ Hrun) as (_ & _ & Hf & Hp & Hn).
  exists new, forked. repeat split; assumption.
Defined.

(** ** Partial update *)

Lemma merge_patch_default {A} (truthy : option A -> bool) (new : option A) (old : A) :
  merge_patch truthy new old (default old (pick truthy new)).
Proof.
  unfold merge_patch, pick. split.
  - intros v -> Ht. rewrite Ht. reflexivity.
  - intros Ht. rewrite Ht. reflexivity.
Qed.

(** C8, as amended.  PUT /api/recipes/:id by the owner stores and answers
    the Recipe in which each of title, description, ingredients,
    instructions, cookingTime, servings, image and tags has the value of
    the payload when the payload has that field with a truthy value (a
    string that is not empty, a number that is not 0, any array), and its
    old value otherwise; user, likes, parentRecipe, isForked, modifications
    and date are unchanged, and so are all other documents. *)
Theorem recipes_put_merge (db : DB) (id : string) (k : ObjectId) (R : Recipe.t)
    (uid : string) (b : RecipeBody) :
  castObjectId id = Some k ->
  recipes db !! k = Some R ->
  toString (Recipe.user R) = uid ->
  exists R',
    recipes_put id uid b db
      = (OK (RecipeDoc k R'),
         with_recipes (<[k:=R']> (recipes db)) (UpdateOne recipes_c k) db)
    /\ merge_patch truthyS (b_title b) (Recipe.title R) (Recipe.title R')
    /\ merge_patch truthyS (b_description b) (Recipe.description R) (Recipe.description R')
    /\ merge_patch truthyA (b_ingredients b) (Recipe.ingredients R) (Recipe.ingredients R')
    /\ merge_patch truthyA (b_instructions b) (Recipe.instructions R) (Recipe.instructions R')
    /\ merge_patch truthyN (b_cookingTime b) (Recipe.cookingTime R) (Recipe.cookingTime R')
    /\ merge_patch truthyN (b_servings b) (Recipe.servings R) (Recipe.servings R')
    /\ merge_patch truthyA (b_tags b) (Recipe.tags R) (Recipe.tags R')
    /\ (forall v, b_image b = Some v -> truthyS (b_image b) = true ->
          Recipe.image R' = Some v)
    /\ (truthyS (b_image b) = false -> Recipe.image R' = Recipe.image R)
    /\ Recipe.user R' = Recipe.user R
    /\ Recipe.likes R' = Recipe.likes R
    /\ Recipe.parentRecipe R' = Recipe.parentRecipe R
    /\ Recipe.isForked R' = Recipe.isForked R
    /\ Recipe.modifications R' = Recipe.modifications R
    /\ Recipe.date R' = Recipe.date R.
Proof.
  intros Hcast Hfind Hown.
  unfold recipes_put, try_catch, bind.
  rewrite (findById_found recipes id k R db Hcast Hfind).
  rewrite (proj2 (eqb_toString_true (Recipe.user R) uid) Hown). simpl.
  unfold Recipe_findByIdAndUpdate. rewrite Hcast, Hfind. simpl.
  eexists. split; [reflexivity|]. simpl.
  repeat apply conj; try reflexivity; try apply merge_patch_default.
  - intros v Hv Ht. unfold pick. rewrite Ht, Hv. reflexivity.
  - intros Ht. unfold pick. rewrite Ht. reflexivity.
Qed.

Lemma recipes_put_merge_witness :
  exists R',
    fst (recipes_put soup alice (with_title (Some "Broth") no_body) db0)
      = OK (RecipeDoc soup R')
    /\ Recipe.title R' = "Broth"
    /\ Recipe.description R' = "Warm"
    /\ Recipe.likes R' = [ {| like_user := bob |} ].
Proof.
  destruct (recipes_put_merge db0 soup soup soupR alice
              (with_title (Some "Broth") no_body))
    as (R' & Hrun & [Ht _] & [_ Hd] & _ & _ & _ & _ & _ & _ & _ & _ & Hl & _);
    try reflexivity.
  exists R'. rewrite Hrun. repeat split.
  - apply (Ht "Broth"); reflexivity.
  - apply Hd. reflexivity.
  - exact Hl.
Defined.

(** C8, as stated, fails for a field that is present with a falsy value:
    a payload whose [title] is the empty string leaves the title as it
    was. *)
Lemma recipes_put_empty_title :
  exists R' db',
    recipes db0 !! soup = Some soupR
    /\ Recipe.user soupR = alice
    /\ b_title (with_title (Some "") no_body) = Some ""
    /\ recipes_put soup alice (with_title (Some "") no_body) db0
       = (OK (RecipeDoc soup R'), db')
    /\ recipes db' !! soup = Some R'
    /\ Recipe.title R' = "Soup"
    /\ Recipe.title R' <> "".
Proof.
  eexists. eexists. split; [reflexivity|]. split; [reflexivity|].
  split; [reflexivity|]. split; [vm_compute; reflexivity|].
  split; [vm_compute; reflexivity|]. split; [reflexivity | discriminate].
Qed.

(** ** Comments: who may delete, and the (recipeId, commentId) pairing *)

(** C4.  For a Comment C attached to Recipe R, DELETE
    /api/comments/:recipeId/:commentId by user U answers 200 exactly when U
    is C's author or R's owner, and then C, and only C, is removed; for any
    other U it answers Forbidden and the database is unchanged, so C is
    still stored with the same contents. *)
Theorem comments_delete_dual_owner (db : DB) (recipeId commentId : string)
    (c : ObjectId) (uid : string) (C : Comment.t) (R : Recipe.t) :
  castObjectId commentId = Some c ->
  printed recipeId ->
  comments db !! c = Some C ->
  recipes db !! recipeId = Some R ->
  Comment.recipe C = recipeId ->
  (status (fst (comments_delete recipeId commentId uid db)) = 200%nat
     <-> (uid = Comment.user C \/ uid = Recipe.user R))
  /\ (uid = Comment.user C \/ uid = Recipe.user R ->
        comments_delete recipeId commentId uid db
          = (OK (Msg "Comment removed"),
             with_comments (delete c (comments db)) (DeleteOne comments_c c) db))
  /\ (uid <> Comment.user C -> uid <> Recipe.user R ->
        comments_delete recipeId commentId uid db = (Forbidden, db)
        /\ comments (snd (comments_delete recipeId commentId uid db)) !! c = Some C).
Proof.
  intros Hc Hr HC HR Hatt.
  assert (Hrun : comments_delete recipeId commentId uid db =
    if (negb (String.eqb (toString (Comment.user C)) uid)
        && negb (String.eqb (toString (Recipe.user R)) uid))%bool
    then (Forbidden, db)
    else (OK (Msg "Comment removed"),
          with_comments (delete c (comments db)) (DeleteOne comments_c c) db)).
  { unfold comments_delete, try_catch, bind.
    rewrite (findById_found comments commentId c C db Hc HC).
    rewrite (findById_found recipes recipeId recipeId R db Hr HR).
    rewrite (proj2 (eqb_toString_true (Comment.recipe C) recipeId) Hatt). simpl.
    destruct (negb _ && negb _)%bool; reflexivity. }
  rewrite Hrun. clear Hrun.
  destruct (String.eqb (toString (Comment.user C)) uid) eqn:Eu;
    [apply eqb_toString_true in Eu | apply eqb_toString_false in Eu];
    (destruct (String.eqb (toString (Recipe.user R)) uid) eqn:Eo;
      [apply eqb_toString_true in Eo | apply eqb_toString_false in Eo]); simpl.
  - split; [split; auto|]. split; [reflexivity | congruence].
  - split; [split; auto|]. split; [reflexivity | congruence].
  - split; [split; auto|]. split; [reflexivity | congruence].
  - split.
    + split; [discriminate | intros [? | ?]; congruence].
    + split; [intros [? | ?]; congruence | auto].
Qed.

Lemma comments_delete_dual_owner_witness :
  comments_delete soup note1 alice db0
    = (OK (Msg "Comment removed"),
       with_comments (delete note1 (comments db0)) (DeleteOne comments_c note1) db0)
  /\ (comments_delete soup note1 carol db0 = (Forbidden, db0)
      /\ comments (snd (comments_delete soup note1 carol db0)) !! note1 = Some note1C).
Proof.
  split.
  - apply (comments_delete_dual_owner db0 soup note1 note1 alice note1C soupR);
      try reflexivity.
    right. reflexivity.
  - apply (comments_delete_dual_owner db0 soup note1 note1 carol note1C soupR);
      try reflexivity; discriminate.
Defined.

(** C5, as amended.  When the Comment addressed by commentId exists and its
    stored [recipe] differs from the recipeId of the path, no route returns
    the Comment or changes the database: read, like and unlike answer
    ReferenceMismatch; update answers ReferenceMismatch when its text is not
    empty and ValidationFailed otherwise; delete answers ReferenceMismatch
    when recipeId resolves to an existing Recipe, and NotFound when it does
    not resolve. *)
Theorem comments_reference_mismatch (db : DB) (recipeId commentId : string)
    (c : ObjectId) (C : Comment.t) (uid : string) (text : option string) :
  castObjectId commentId = Some c ->
  comments db !! c = Some C ->
  Comment.recipe C <> recipeId ->
  comments_get recipeId commentId db = (ReferenceMismatch, db)
  /\ comments_like recipeId commentId uid db = (ReferenceMismatch, db)
  /\ comments_unlike recipeId commentId uid db = (ReferenceMismatch, db)
  /\ (truthyS text = true ->
        comments_put recipeId commentId uid text db = (ReferenceMismatch, db))
  /\ (truthyS text = false ->
        comments_put recipeId commentId uid text db
          = (ValidationFailed ["Text is required"], db))
  /\ (forall r R, castObjectId recipeId = Some r -> recipes db !! r = Some R ->
        comments_delete recipeId commentId uid db = (ReferenceMismatch, db))
  /\ (forall r, castObjectId recipeId = Some r -> recipes db !! r = None ->
        comments_delete recipeId commentId uid db = (NotFound "Recipe", db))
  /\ (castObjectId recipeId = None ->
        comments_delete recipeId commentId uid db = (NotFound "Comment", db)).
Proof.
  intros Hc HC Hne.
  pose proof (proj2 (eqb_toString_false (Comment.recipe C) recipeId) Hne) as Hneb.
  repeat apply conj.
  - unfold comments_get, try_catch, bind.
    rewrite (findById_found comments commentId c C db Hc HC), Hneb. reflexivity.
  - unfold comments_like, try_catch, bind.
    rewrite (findById_found comments commentId c C db Hc HC), Hneb. reflexivity.
  - unfold comments_unlike, try_catch, bind.
    rewrite (findById_found comments commentId c C db Hc HC), Hneb. reflexivity.
  - intros Ht. unfold comments_put, validate_text, check. rewrite Ht.
    unfold try_catch, bind.
    rewrite (findById_found comments commentId c C db Hc HC), Hneb. reflexivity.
  - intros Ht. unfold comments_put, validate_text, check. rewrite Ht. reflexivity.
  - intros r R Hr HR. unfold comments_delete, try_catch, bind.
    rewrite (findById_found comments commentId c C db Hc HC).
    rewrite (findById_found recipes recipeId r R db Hr HR), Hneb. reflexivity.
  - intros r Hr HR. unfold comments_delete, try_catch, bind.
    rewrite (findById_found comments commentId c C db Hc HC).
    rewrite (findById_missing recipes recipeId r db Hr HR). reflexivity.
  - intros Hr. unfold comments_delete, try_catch, bind.
    rewrite (findById_found comments commentId c C db Hc HC).
    unfold findById. rewrite Hr. reflexivity.
Qed.

Lemma comments_reference_mismatch_witness :
  comments_get stew note1 db0 = (ReferenceMismatch, db0)
  /\ comments_delete stew note1 bob db0 = (ReferenceMismatch, db0).
Proof.
  destruct (comments_reference_mismatch db0 stew note1 note1 note1C bob (Some "x"))
    as (Hget & _ & _ & _ & _ & Hdel & _); try reflexivity; try discriminate.
  split; [exact Hget|].
  apply (Hdel stew stewR); reflexivity.
Defined.

(** C5, as stated, fails for delete: the Comment exists, its [recipe] is
    the soup, the path names a Recipe that does not exist, and the answer
    is a not-found, not ReferenceMismatch. *)
Lemma comments_delete_unknown_recipe :
  comments db0 !! note1 = Some note1C
  /\ Comment.recipe note1C <> gone
  /\ comments_delete gone note1 bob db0 = (NotFound "Recipe", db0)
  /\ fst (comments_delete gone note1 bob db0) <> ReferenceMismatch
  /\ status (fst (comments_delete gone note1 bob db0)) = 404%nat.
Proof.
  split; [reflexivity|]. split; [discriminate|].
  split; [vm_compute; reflexivity|]. split; [discriminate | reflexivity].
Qed.

(** ** Like and unlike *)

Lemma some_has_user (uid : string) (l : list Like) :
  existsb (fun like => String.eqb (toString (like_user like)) uid) l = true
  <-> has_user uid l.
Proof.
  unfold has_user. induction l as [|x l IH]; simpl.
  - split; [discriminate | intros H; inversion H].
  - rewrite Exists_cons, orb_true_iff, IH.
    rewrite (eqb_toString_true (like_user x) uid). reflexivity.
Qed.

Lemma some_has_user_false (uid : string) (l : list Like) :
  existsb (fun like => String.eqb (toString (like_user like)) uid) l = false
  <-> ~ has_user uid l.
Proof.
  rewrite <- some_has_user. destruct (existsb _ l); split; congruence.
Qed.

Lemma filter_other_users (uid : string) (l : list Like) :
  List.filter (fun like => negb (String.eqb (toString (like_user like)) uid)) l
  = filter (fun like => like_user like <> uid) l.
Proof.
  induction l as [|x l IH]; [reflexivity|].
  simpl. rewrite filter_cons. rewrite IH.
  destruct (String.eqb (toString (like_user x)) uid) eqn:E; simpl.
  - apply (eqb_toString_true (like_user x) uid) in E.
    destruct (decide (like_user x <> uid)); [contradiction | reflexivity].
  - apply (eqb_toString_false (like_user x) uid) in E.
    destruct (decide (like_user x <> uid)); [reflexivity | contradiction].
Qed.

Lemma alter_found {D} (f : D -> D) (k : string) (d : D) (m : gmap string D) :
  m !! k = Some d -> alter f k m = <[k:=f d]> m.
Proof.
  intros H. apply map_eq. intros i.
  destruct (decide (k = i)) as [<-|Hne].
  - rewrite lookup_alter_eq, lookup_insert_eq, H. reflexivity.
  - rewrite lookup_alter_ne, lookup_insert_ne by exact Hne. reflexivity.
Qed.

(** C3, as amended.  For an entity E (a Recipe, or a Comment addressed
    with its Recipe) whose likes list is L, and a user U: like answers
    AlreadyLiked and changes nothing when an entry of L has user U, and
    otherwise, E passing its schema's validators, stores and answers L with
    a new entry for U put in front; unlike answers NotYetLiked and changes
    nothing when no entry of L has user U, and otherwise, E passing its
    schema's validators, stores and answers L without the entries whose
    user is U, the others kept in their order.  When E does not pass them,
    the write is refused with the answer 500 and nothing changes. *)
Theorem like_unlike_toggle (e : entity) (db : DB) (uid : string) (L : list Like) :
  entity_printed e ->
  printed uid ->
  likes_of e db = Some L ->
  (has_user uid L -> like e uid db = (AlreadyLiked e, db))
  /\ (~ has_user uid L -> passes_schema e db ->
        like e uid db
          = (OK (Likes ({| like_user := uid |} :: L)),
             store_likes e ({| like_user := uid |} :: L) db))
  /\ (~ has_user uid L -> unlike e uid db = (NotYetLiked e, db))
  /\ (has_user uid L -> passes_schema e db ->
        unlike e uid db
          = (OK (Likes (filter (fun l => like_user l <> uid) L)),
             store_likes e (filter (fun l => like_user l <> uid) L) db))
  /\ (~ passes_schema e db ->
        (~ has_user uid L -> like e uid db = (ServerError, db))
        /\ (has_user uid L -> unlike e uid db = (ServerError, db))).
Proof.
  intros He Hu HL. destruct e as [id | recipeId commentId]; simpl in *.
  - destruct (recipes db !! id) as [R|] eqn:HR; [|discriminate].
    simpl in HL. injection HL as <-.
    assert (Hlike : ~ has_user uid (Recipe.likes R) ->
      recipes_like id uid db =
        if Recipe_validate R
        then (OK (Likes ({| like_user := uid |} :: Recipe.likes R)),
              with_recipes
                (<[id:=Recipe.set_likes ({| like_user := uid |} :: Recipe.likes R) R]>
                   (recipes db)) (UpdateOne recipes_c id) db)
        else (ServerError, db)).
    { intros Hhas. unfold recipes_like, try_catch, bind.
      rewrite (findById_found recipes id id R db He HR).
      rewrite (proj2 (some_has_user_false uid _) Hhas).
      unfold new_Like. rewrite Hu. simpl. unfold Recipe_save.
      rewrite (Recipe_validate_ext _ R) by reflexivity.
      destruct (Recipe_validate R); reflexivity. }
    assert (Hunlike : has_user uid (Recipe.likes R) ->
      recipes_unlike id uid db =
        if Recipe_validate R
        then (OK (Likes (filter (fun l => like_user l <> uid) (Recipe.likes R))),
              with_recipes
                (<[id:=Recipe.set_likes
                         (filter (fun l => like_user l <> uid) (Recipe.likes R)) R]>
                   (recipes db)) (UpdateOne recipes_c id) db)
        else (ServerError, db)).
    { intros Hhas. unfold recipes_unlike, try_catch, bind.
      rewrite (findById_found recipes id id R db He HR).
      rewrite (proj2 (some_has_user uid _) Hhas). simpl.
      rewrite filter_other_users. unfold Recipe_save.
      rewrite (Recipe_validate_ext _ R) by reflexivity.
      destruct (Recipe_validate R); reflexivity. }
    repeat apply conj.
    + intros Hhas. unfold recipes_like, try_catch, bind.
      rewrite (findById_found recipes id id R db He HR).
      rewrite (proj2 (some_has_user uid _) Hhas). reflexivity.
    + intros Hhas Hv. rewrite (Hlike Hhas), (Hv R eq_refl).
      rewrite (alter_found _ id R _ HR). reflexivity.
    + intros Hhas. unfold recipes_unlike, try_catch, bind.
      rewrite (findById_found recipes id id R db He HR).
      rewrite (proj2 (some_has_user_false uid _) Hhas). reflexivity.
    + intros Hhas Hv. rewrite (Hunlike Hhas), (Hv R eq_refl).
      rewrite (alter_found _ id R _ HR). reflexivity.
    + intros Hv.
      assert (E : Recipe_validate R = false).
      { destruct (Recipe_validate R) eqn:E; [|reflexivity].
        contradiction Hv. intros R' HR'. injection HR' as <-. exact E. }
      split; intros Hhas.
      * rewrite (Hlike Hhas), E. reflexivity.
      * rewrite (Hunlike Hhas), E. reflexivity.
  - destruct (comments db !! commentId) as [C|] eqn:HC; [|discriminate].
    simpl in HL.
    destruct (decide (Comment.recipe C = recipeId)) as [Hr|]; [|discriminate].
    injection HL as <-.
    pose proof (proj2 (eqb_toString_true (Comment.recipe C) recipeId) Hr) as Hrb.
    assert (Hlike : ~ has_user uid (Comment.likes C) ->
      comments_like recipeId commentId uid db =
        if Comment_validate C
        then (OK (Likes ({| like_user := uid |} :: Comment.likes C)),
              with_comments
                (<[commentId:=Comment.set_likes
                                ({| like_user := uid |} :: Comment.likes C) C]>
                   (comments db)) (UpdateOne comments_c commentId) db)
        else (ServerError, db)).
    { intros Hhas. unfold comments_like, try_catch, bind.
      rewrite (findById_found comments commentId commentId C db He HC), Hrb.
      simpl. rewrite (proj2 (some_has_user_false uid _) Hhas).
      unfold new_Like. rewrite Hu. simpl. unfold Comment_save, Comment_validate. simpl.
      destruct (required (Comment.text C)); reflexivity. }
    assert (Hunlike : has_user uid (Comment.likes C) ->
      comments_unlike recipeId commentId uid db =
        if Comment_validate C
        then (OK (Likes (filter (fun l => like_user l <> uid) (Comment.likes C))),
              with_comments
                (<[commentId:=Comment.set_likes
                                (filter (fun l => like_user l <> uid) (Comment.likes C)) C]>
                   (comments db)) (UpdateOne comments_c commentId) db)
        else (ServerError, db)).
    { intros Hhas. unfold comments_unlike, try_catch, bind.
      rewrite (findById_found comments commentId commentId C db He HC), Hrb.
      simpl. rewrite (proj2 (some_has_user uid _) Hhas). simpl.
      rewrite filter_other_users. unfold Comment_save, Comment_validate. simpl.
      destruct (required (Comment.text C)); reflexivity. }
    repeat apply conj.
    + intros Hhas. unfold comments_like, try_catch, bind.
      rewrite (findById_found comments commentId commentId C db He HC), Hrb.
      simpl. rewrite (proj2 (some_has_user uid _) Hhas). reflexivity.
    + intros Hhas Hv. rewrite (Hlike Hhas), (Hv C eq_refl).
      rewrite (alter_found _ commentId C _ HC). reflexivity.
    + intros Hhas. unfold comments_unlike, try_catch, bind.
      rewrite (findById_found comments commentId commentId C db He HC), Hrb.
      simpl. rewrite (proj2 (some_has_user_false uid _) Hhas). reflexivity.
    + intros Hhas Hv. rewrite (Hunlike Hhas), (Hv C eq_refl).
      rewrite (alter_found _ commentId C _ HC). reflexivity.
    + intros Hv.
      assert (E : Comment_validate C = false).
      { destruct (Comment_validate C) eqn:E; [|reflexivity].
        contradiction Hv. intros C' HC'. injection HC' as <-. exact E. }
      split; intros Hhas.
      * rewrite (Hlike Hhas), E. reflexivity.
      * rewrite (Hunlike Hhas), E. reflexivity.
Qed.

Lemma db0_soup_valid (R : Recipe.t) :
  recipes db0 !! soup = Some R -> Recipe_validate R = true.
Proof. intros H. injection H as <-. reflexivity. Qed.

Lemma db0_note1_valid (C : Comment.t) :
  comments db0 !! note1 = Some C -> Comment_validate C = true.
Proof. intros H. injection H as <-. reflexivity. Qed.

Lemma like_unlike_toggle_witness :
  like (ARecipe soup) bob db0 = (AlreadyLiked (ARecipe soup), db0)
  /\ like (AComment soup note1) alice db0
     = (OK (Likes [ {| like_user := alice |}; {| like_user := carol |} ]),
        store_likes (AComment soup note1)
          [ {| like_user := alice |}; {| like_user := carol |} ] db0)
  /\ like (ARecipe soup) alice db0
     = (OK (Likes [ {| like_user := alice |}; {| like_user := bob |} ]),
        store_likes (ARecipe soup)
          [ {| like_user := alice |}; {| like_user := bob |} ] db0)
  /\ unlike (ARecipe soup) alice db0 = (NotYetLiked (ARecipe soup), db0)
  /\ unlike (AComment soup note1) carol db0
     = (OK (Likes []), store_likes (AComment soup note1) [] db0)
  /\ like (ARecipe soup) alice db_nameless = (ServerError, db_nameless)
  /\ unlike (ARecipe soup) bob db_nameless = (ServerError, db_nameless).
Proof.
  assert (Hbob : ~ has_user alice [ {| like_user := bob |} ])
    by (intros H; apply Exists_cons in H as [H | H]; [discriminate | inversion H]).
  assert (Hcarol : ~ has_user alice [ {| like_user := carol |} ])
    by (intros H; apply Exists_cons in H as [H | H]; [discriminate | inversion H]).
  destruct (like_unlike_toggle (ARecipe soup) db0 bob [ {| like_user := bob |} ]
              eq_refl eq_refl eq_refl) as (H1 & _).
  destruct (like_unlike_toggle (AComment soup note1) db0 alice [ {| like_user := carol |} ]
              eq_refl eq_refl eq_refl) as (_ & H2 & _).
  destruct (like_unlike_toggle (ARecipe soup) db0 alice [ {| like_user := bob |} ]
              eq_refl eq_refl eq_refl) as (_ & H3 & H4 & _).
  destruct (like_unlike_toggle (AComment soup note1) db0 carol [ {| like_user := carol |} ]
              eq_refl eq_refl eq_refl) as (_ & _ & _ & H5 & _).
  split; [apply H1; apply Exists_cons_hd; reflexivity|].
  split; [apply H2; [exact Hcarol | exact db0_note1_valid]|].
  split; [apply H3; [exact Hbob | exact db0_soup_valid]|].
  split; [apply H4; exact Hbob|].
  split; [apply H5; [apply Exists_cons_hd; reflexivity | exact db0_note1_valid]|].
  assert (Hbad : ~ passes_schema (ARecipe soup) db_nameless)
    by (intros H; specialize (H _ eq_refl); discriminate H).
  destruct (like_unlike_toggle (ARecipe soup) db_nameless alice [ {| like_user := bob |} ]
              eq_refl eq_refl eq_refl) as (_ & _ & _ & _ & H6).
  destruct (like_unlike_toggle (ARecipe soup) db_nameless bob [ {| like_user := bob |} ]
              eq_refl eq_refl eq_refl) as (_ & _ & _ & _ & H7).
  split; [apply (H6 Hbad); exact Hbob|].
  apply (H7 Hbad). apply Exists_cons_hd. reflexivity.
Defined.

(** C3, as stated, fails for a Recipe that no longer passes its schema.
    The owner of the soup updates it with an ingredient without a name;
    the update is stored.  Alice is not in its likes, yet her like is
    answered 500 and the likes stay as they were. *)
Lemma like_nameless_recipe :
  status (fst (recipes_put soup alice nameless_body db0)) = 200%nat
  /\ likes_of (ARecipe soup) db_nameless = Some [ {| like_user := bob |} ]
  /\ ~ has_user alice [ {| like_user := bob |} ]
  /\ like (ARecipe soup) alice db_nameless = (ServerError, db_nameless)
  /\ likes_of (ARecipe soup) (snd (like (ARecipe soup) alice db_nameless))
     = Some [ {| like_user := bob |} ].
Proof.
  split; [vm_compute; reflexivity|]. split; [vm_compute; reflexivity|].
  split; [intros H; apply Exists_cons in H as [H | H]; [discriminate | inversion H]|].
  split; vm_compute; reflexivity.
Qed.

(** ** Folder membership *)

Lemma includes_In (l : list ObjectId) (id : string) :
  includes l id = true <-> In id l.
Proof.
  unfold includes. induction l as [|x l IH]; simpl.
  - split; [discriminate | contradiction].
  - rewrite orb_true_iff, IH, (eqb_toString_true x id). reflexivity.
Qed.

Lemma includes_not_In (l : list ObjectId) (id : string) :
  includes l id = false <-> ~ In id l.
Proof.
  rewrite <- includes_In. destruct (includes l id); split; congruence.
Qed.

Lemma filter_other_recipes (id : string) (l : list ObjectId) :
  List.filter (fun recipe => negb (String.eqb (toString recipe) id)) l
  = filter (fun recipe => recipe <> id) l.
Proof.
  induction l as [|x l IH]; [reflexivity|].
  simpl. rewrite filter_cons. rewrite IH.
  destruct (String.eqb (toString x) id) eqn:E; simpl.
  - apply (eqb_toString_true x id) in E.
    case_decide; [contradiction | reflexivity].
  - apply (eqb_toString_false x id) in E.
    case_decide; [reflexivity | contradiction].
Qed.

Lemma includes_unprinted (l : list ObjectId) (raw : string) (r : ObjectId) :
  castObjectId raw = Some r -> raw <> r -> Forall printed l -> includes l raw = false.
Proof.
  intros Hc Hne Hl. apply includes_not_In. intros Hin.
  rewrite List.Forall_forall in Hl. specialize (Hl raw Hin).
  unfold printed in Hl. rewrite Hc in Hl. injection Hl as Hl. congruence.
Qed.

Lemma folders_addRecipe_run (db : DB) (id recipeId uid : string) (k r : ObjectId)
    (F : Folder.t) (X : Recipe.t) :
  castObjectId id = Some k ->
  castObjectId recipeId = Some r ->
  folders db !! k = Some F ->
  toString (Folder.user F) = uid ->
  recipes db !! r = Some X ->
  folders_addRecipe id recipeId uid db =
    if includes (Folder.recipes F) recipeId
    then (AlreadyMember, db)
    else if Folder_validate F
    then
      let F' := Folder.set_recipes (Folder.recipes F ++ [r]) F in
      (OK (FolderDoc k F'),
       with_folders (<[k:=F']> (folders db)) (UpdateOne folders_c k) db)
    else (ServerError, db).
Proof.
  intros Hid Hrid HF Hown HX.
  unfold folders_addRecipe, try_catch, bind.
  rewrite (findById_found folders id k F db Hid HF).
  rewrite (findById_found recipes recipeId r X db Hrid HX).
  rewrite (proj2 (eqb_toString_true (Folder.user F) uid) Hown). simpl.
  destruct (includes (Folder.recipes F) recipeId); [reflexivity|].
  unfold Folder_save, Folder_validate. simpl.
  destruct (required (Folder.name F)); reflexivity.
Qed.

Lemma folders_removeRecipe_run (db : DB) (id recipeId uid : string) (k : ObjectId)
    (F : Folder.t) :
  castObjectId id = Some k ->
  folders db !! k = Some F ->
  toString (Folder.user F) = uid ->
  folders_removeRecipe id recipeId uid db =
    if negb (includes (Folder.recipes F) recipeId)
    then (NotMember, db)
    else if Folder_validate F
    then
      let F' := Folder.set_recipes
                  (filter (fun r => r <> recipeId) (Folder.recipes F)) F in
      (OK (FolderDoc k F'),
       with_folders (<[k:=F']> (folders db)) (UpdateOne folders_c k) db)
    else (ServerError, db).
Proof.
  intros Hid HF Hown.
  unfold folders_removeRecipe, try_catch, bind.
  rewrite (findById_found folders id k F db Hid HF).
  rewrite (proj2 (eqb_toString_true (Folder.user F) uid) Hown). simpl.
  rewrite filter_other_recipes.
  destruct (includes (Folder.recipes F) recipeId); [|reflexivity].
  unfold Folder_save, Folder_validate. simpl.
  destruct (required (Folder.name F)); reflexivity.
Qed.




(** C7, as amended.  Adding a Recipe to a Folder casts and looks up both
    ids and answers NotFound, changing nothing, when the Folder does not
    exist or the Recipe does not exist.  Removing a Recipe from a Folder
    looks up the Folder only: it answers NotFound, changing nothing, when
    the Folder does not exist, and never reads the recipes: its answer and
    the folders it leaves are the same whatever the other collections
    hold.  An id that is not a well-formed ObjectId (the folder's on either
    route, the recipe's on the add route) is answered 500, not NotFound,
    and nothing changes. *)
Theorem folders_existence_checks (db : DB) (id recipeId uid : string) :
  (castObjectId id = None ->
     folders_addRecipe id recipeId uid db = (ServerError, db)
     /\ folders_removeRecipe id recipeId uid db = (ServerError, db))
  /\ (castObjectId recipeId = None ->
        folders_addRecipe id recipeId uid db = (ServerError, db))
  /\ (forall k, castObjectId id = Some k -> folders db !! k = None ->
        (is_Some (castObjectId recipeId) ->
           folders_addRecipe id recipeId uid db = (NotFound "Folder", db))
        /\ folders_removeRecipe id recipeId uid db = (NotFound "Folder", db))
  /\ (forall k r, castObjectId id = Some k -> castObjectId recipeId = Some r ->
        is_Some (folders db !! k) -> recipes db !! r = None ->
        folders_addRecipe id recipeId uid db = (NotFound "Recipe", db))
  /\ (forall db2, folders db2 = folders db ->
        fst (folders_removeRecipe id recipeId uid db2)
          = fst (folders_removeRecipe id recipeId uid db)
        /\ folders (snd (folders_removeRecipe id recipeId uid db2))
           = folders (snd (folders_removeRecipe id recipeId uid db))).
Proof.
  repeat apply conj.
  - intros Hk. split.
    + unfold folders_addRecipe, try_catch, bind, findById. rewrite Hk. reflexivity.
    + unfold folders_removeRecipe, try_catch, bind, findById. rewrite Hk. reflexivity.
  - intros Hr. unfold folders_addRecipe, try_catch, bind, findById. rewrite Hr.
    destruct (castObjectId id); reflexivity.
  - intros k Hk HF. split.
    + intros [r Hr]. unfold folders_addRecipe, try_catch, bind.
      rewrite (findById_missing folders id k db Hk HF).
      unfold findById. rewrite Hr. destruct (recipes db !! r); reflexivity.
    + unfold folders_removeRecipe, try_catch, bind.
      rewrite (findById_missing folders id k db Hk HF). reflexivity.
  - intros k r Hk Hr [F HF] HR. unfold folders_addRecipe, try_catch, bind.
    rewrite (findById_found folders id k F db Hk HF).
    rewrite (findById_missing recipes recipeId r db Hr HR). reflexivity.
  - intros db2 Hsame.
    unfold folders_removeRecipe, try_catch, bind, findById.
    destruct (castObjectId id) as [k|]; [|split; [reflexivity | exact Hsame]].
    rewrite Hsame.
    destruct (folders db !! k) as [F|]; simpl; [|split; [reflexivity | exact Hsame]].
    destruct (negb (String.eqb (toString (Folder.user F)) uid)); simpl;
      [split; [reflexivity | exact Hsame]|].
    destruct (negb (includes (Folder.recipes F) recipeId)); simpl;
      [split; [reflexivity | exact Hsame]|].
    unfold Folder_save.
    destruct (Folder_validate _); simpl; [|split; [reflexivity | exact Hsame]].
    rewrite Hsame. split; reflexivity.
Qed.

Lemma folders_existence_checks_witness :
  folders_addRecipe shelf gone alice db0 = (NotFound "Recipe", db0)
  /\ folders_addRecipe gone stew alice db0 = (NotFound "Folder", db0)
  /\ folders_removeRecipe gone stew alice db0 = (NotFound "Folder", db0)
  /\ folders_addRecipe "shelf" stew alice db0 = (ServerError, db0)
  /\ folders_removeRecipe "shelf" stew alice db0 = (ServerError, db0)
  /\ folders_addRecipe shelf "stew" alice db0 = (ServerError, db0).
Proof.
  destruct (folders_existence_checks db0 shelf gone alice) as (_ & _ & _ & H1 & _).
  destruct (folders_existence_checks db0 gone stew alice) as (_ & _ & H2 & _).
  destruct (folders_existence_checks db0 "shelf" stew alice) as (H3 & _).
  destruct (folders_existence_checks db0 shelf "stew" alice) as (_ & H4 & _).
  split; [apply (H1 shelf gone); try reflexivity; exists shelfF; reflexivity|].
  destruct (H2 gone eq_refl eq_refl) as [H2a H2r].
  split; [apply H2a; exists stew; reflexivity|].
  split; [exact H2r|].
  destruct (H3 eq_refl) as [H3a H3r].
  split; [exact H3a|]. split; [exact H3r|].
  apply H4. reflexivity.
Defined.

(** C7, as stated, fails for removal: the Recipe named in the path does not
    exist, and the request is not answered NotFound but succeeds and
    rewrites the Folder.  It also fails for an id that is not a well-formed
    ObjectId: the answer is 500, not NotFound. *)
Lemma folders_removeRecipe_unknown_recipe :
  recipes db0 !! gone = None
  /\ folders db0 !! shelf = Some shelfF
  /\ fst (folders_removeRecipe shelf gone alice db0)
     = OK (FolderDoc shelf (Folder.set_recipes [stew] shelfF))
  /\ status (fst (folders_removeRecipe shelf gone alice db0)) <> 404%nat
  /\ folders (snd (folders_removeRecipe shelf gone alice db0)) !! shelf
     = Some (Folder.set_recipes [stew] shelfF)
  /\ folders (snd (folders_removeRecipe shelf gone alice db0)) <> folders db0
  /\ castObjectId "stew" = None
  /\ status (fst (folders_addRecipe shelf "stew" alice db0)) = 500%nat.
Proof.
  split; [reflexivity|]. split; [reflexivity|].
  split; [vm_compute; reflexivity|]. split; [vm_compute; discriminate|].
  split; [vm_compute; reflexivity|].
  split; [|split; vm_compute; reflexivity].
  intros H. apply (f_equal (fun m => Folder.recipes <$> m !! shelf)) in H.
  vm_compute in H. discriminate.
Qed.

(** ** Uniqueness of likes *)

Lemma unique_nil : unique_likes [].
Proof. apply NoDup_nil_2. Qed.

Lemma unique_unshift (uid : string) (l : list Like) :
  existsb (fun like => String.eqb (toString (like_user like)) uid) l = false ->
  unique_likes l -> unique_likes ({| like_user := uid |} :: l).
Proof.
  intros Hno Hl. unfold unique_likes. simpl. apply NoDup_cons_2; [|exact Hl].
  intros Hin. apply list_elem_of_In, in_map_iff in Hin as (x & Hx & Hin).
  apply some_has_user_false in Hno. apply Hno.
  apply Exists_exists. exists x. split; [apply list_elem_of_In; exact Hin | exact Hx].
Qed.

Lemma unique_filter (f : Like -> bool) (l : list Like) :
  unique_likes l -> unique_likes (List.filter f l).
Proof.
  unfold unique_likes. induction l as [|x l IH]; simpl; [auto|].
  intros H. apply NoDup_cons in H as [Hx Hl].
  destruct (f x); simpl; [|auto].
  apply NoDup_cons_2; [|auto].
  intros Hin. apply Hx.
  apply list_elem_of_In, in_map_iff in Hin as (y & Hy & Hin).
  apply list_elem_of_In, in_map_iff. exists y. split; [exact Hy|].
  apply filter_In in Hin. tauto.
Qed.

Ltac unfold_store :=
  unfold try_catch, bind, findById, reply, res_json, ret, throw, new_Like,
    new_Recipe, Recipe_insert, Recipe_save, Recipe_deleteOne,
    Recipe_findByIdAndUpdate, Comment_insert, Comment_save, Comment_deleteOne,
    Comment_deleteMany_recipe, Folder_insert, Folder_save, Folder_deleteOne,
    Folder_findByIdAndUpdate.

Ltac found :=
  repeat match goal with
    | H : _ <$> _ = Some _ |- _ => apply fmap_Some in H as (? & ? & ?)
    end;
  simplify_eq.

Ltac kept_leaf :=
  let H := fresh "H" in
  let Hinv := fresh "Hinv" in
  intros H Hinv;
  repeat first
    [ apply lookup_insert_Some in H as [[<- <-] | [? H]]
    | apply lookup_delete_Some in H as [? H]
    | apply map_lookup_filter_Some in H as [H ?] ];
  simpl;
  first
    [ apply Hinv; assumption
    | apply unique_nil
    | apply unique_filter; apply Hinv; assumption
    | apply unique_unshift; [assumption | apply Hinv; assumption] ].

Ltac kept := unfold_store; simpl; repeat (branch; simpl); found; kept_leaf.

Lemma handle_kept (req : request) (db : DB) :
  authenticated req ->
  recipes_kept db (snd (handle req db))
  /\ comments_kept db (snd (handle req db)).
Proof.
  intros Hu.
  assert (Hp : match req_user req with Some uid => castObjectId uid = Some uid | None => True end)
    by (unfold authenticated in Hu; destruct (req_user req);
        [apply Hu; reflexivity | exact I]).
  clear Hu. unfold recipes_kept, comments_kept.
  destruct req; simpl in Hp; simpl handle; split; intros k0 X'.
  all: unfold recipes_post, recipes_put, recipes_delete, recipes_fork, recipes_image,
         recipes_like, recipes_unlike, comments_post, comments_get, comments_put,
         comments_delete, comments_like, comments_unlike, folders_post, folders_put,
         folders_delete, folders_addRecipe, folders_removeRecipe.
  all: kept.
Qed.

Lemma handle_all_unique (req : request) (db : DB) :
  authenticated req -> all_unique db -> all_unique (snd (handle req db)).
Proof.
  intros Hu [HR HC]. destruct (handle_kept req db Hu) as [KR KC]. split.
  - intros k R' H. apply (KR k R' H). intros R. apply HR.
  - intros k C' H. apply (KC k C' H). intros C. apply HC.
Qed.

(** Every state the server reaches from the empty database by handling
    requests one after the other has unique likes everywhere. *)
Lemma run_all_unique (reqs : list request) (db : DB) :
  Forall authenticated reqs -> all_unique db -> all_unique (run reqs db).
Proof.
  intros Hreqs. revert db. induction Hreqs as [|req reqs Hreq _ IH]; intros db Hdb.
  - exact Hdb.
  - simpl. apply IH. apply handle_all_unique; assumption.
Qed.

Lemma reachable_all_unique (reqs : list request) :
  Forall authenticated reqs -> all_unique (run reqs empty_db).
Proof.
  intros Hreqs. apply run_all_unique; [exact Hreqs|].
  split; intros k x H; simpl in H; rewrite lookup_empty in H; discriminate.
Qed.

(** C9.  Whatever request the server handles (the user of a private route
    being an ObjectId as printed), every Recipe and every Comment stored
    afterwards has a likes list in which no user occurs twice, provided the
    same document had such a list before; a document that was not there
    before has one unconditionally.  So like and unlike keep the likes of
    the entity they address unique, and uniqueness of all likes lists is
    preserved by every request. *)
Theorem likes_stay_unique (req : request) (db : DB) :
  authenticated req ->
  (recipes_kept db (snd (handle req db))
   /\ comments_kept db (snd (handle req db)))
  /\ (all_unique db -> all_unique (snd (handle req db))).
Proof.
  intros Hu. split.
  - apply handle_kept. exact Hu.
  - apply handle_all_unique. exact Hu.
Qed.

Lemma likes_stay_unique_witness :
  (recipes_kept db0 (snd (handle (PUT_recipes_like soup alice) db0))
   /\ comments_kept db0 (snd (handle (PUT_recipes_like soup alice) db0)))
  /\ (all_unique db0 -> all_unique (snd (handle (PUT_recipes_like soup alice) db0))).
Proof.
  apply (likes_stay_unique (PUT_recipes_like soup alice) db0).
  intros uid H. injection H as <-. reflexivity.
Defined.

(** * Further properties of the routes *)

Ltac unfold_routes :=
  unfold recipes_post, recipes_put, recipes_delete, recipes_fork, recipes_image,
    recipes_like, recipes_unlike, comments_post, comments_get, comments_put,
    comments_delete, comments_like, comments_unlike, folders_post, folders_put,
    folders_delete, folders_addRecipe, folders_removeRecipe.

(** Every path through a handler. *)
Ltac explore := unfold_routes; unfold_store; simpl; repeat (branch; simpl); found.

(** A lookup in a collection after the handler's write. *)
Ltac after_write H :=
  repeat first
    [ apply lookup_insert_Some in H as [[<- <-] | [? H]]
    | apply lookup_delete_Some in H as [? H]
    | apply map_lookup_filter_Some in H as [H ?] ].

Lemma db0_no_orphans : no_orphans db0.
Proof.
  intros c C H. simpl in H.
  apply lookup_insert_Some in H as [[<- <-] | [_ H]]; [eexists; reflexivity|].
  apply lookup_singleton_Some in H as [<- <-]. eexists; reflexivity.
Qed.

Lemma db0_fork_flags (k : string) (R : Recipe.t) :
  recipes db0 !! k = Some R -> fork_flags R.
Proof.
  intros H. simpl in H.
  apply lookup_insert_Some in H as [[<- <-] | [_ H]].
  - split; [discriminate | intros [? ?]; discriminate].
  - apply lookup_singleton_Some in H as [<- <-].
    split; [discriminate | intros [? ?]; discriminate].
Qed.

Lemma NoDup_push (l : list ObjectId) (id : string) :
  includes l id = false -> NoDup l -> NoDup (l ++ [id]).
Proof.
  intros Hinc Hl. apply includes_not_In in Hinc.
  apply NoDup_app. split; [exact Hl|]. split.
  - intros x Hx Hin. apply list_elem_of_In in Hx.
    apply list_elem_of_singleton in Hin. subst. contradiction.
  - apply NoDup_singleton.
Qed.

(** ** What every route keeps *)

(** X1.  A request that is not answered 200 has written nothing: the
    database, journal included, is the one before. *)
Theorem failure_writes_nothing (req : request) (db : DB) :
  status (fst (handle req db)) <> 200%nat ->
  snd (handle req db) = db.
Proof.
  destruct req; simpl handle; explore; simpl; intros Hs;
    first [reflexivity | contradiction + congruence].
Qed.

Lemma failure_writes_nothing_witness :
  snd (handle (DELETE_recipes soup bob) db0) = db0.
Proof.
  apply (failure_writes_nothing (DELETE_recipes soup bob) db0).
  vm_compute. discriminate.
Defined.

(** X2.  No route writes the users.  The routes of one router write only
    the collection of its model, with one exception: DELETE
    /api/recipes/:id also writes the comments.  In particular no recipe
    route, the delete included, touches a Folder. *)
Theorem handle_frame (req : request) (db : DB) :
  users (snd (handle req db)) = users db
  /\ (router req <> recipes_c -> recipes (snd (handle req db)) = recipes db)
  /\ (router req <> folders_c -> folders (snd (handle req db)) = folders db)
  /\ (router req <> comments_c ->
        comments (snd (handle req db)) = comments db
        \/ exists id uid, req = DELETE_recipes id uid).
Proof.
  destruct req; simpl handle; simpl router; explore; simpl;
    repeat split; try reflexivity; try congruence; intros _; eauto.
Qed.

Lemma handle_frame_witness :
  users (snd (handle (DELETE_recipes soup alice) db0)) = users db0
  /\ folders (snd (handle (DELETE_recipes soup alice) db0)) = folders db0.
Proof.
  destruct (handle_frame (DELETE_recipes soup alice) db0) as (Hu & _ & Hf & _).
  split; [exact Hu | apply Hf; discriminate].
Defined.

(** X3.  No request changes, on a document that is already stored, the
    owner or the date; nor a Recipe's parentRecipe, isForked and
    modifications; nor a Comment's recipe, name and avatar. *)
Theorem created_fields_fixed (req : request) (db : DB) :
  (forall k R R', recipes db !! k = Some R ->
     recipes (snd (handle req db)) !! k = Some R' -> recipe_fixed R R')
  /\ (forall k C C', comments db !! k = Some C ->
        comments (snd (handle req db)) !! k = Some C' -> comment_fixed C C')
  /\ (forall k F F', folders db !! k = Some F ->
        folders (snd (handle req db)) !! k = Some F' -> folder_fixed F F').
Proof.
  unfold recipe_fixed, comment_fixed, folder_fixed.
  destruct req; simpl handle; (split; [|split]); intros k0 X X'; explore; simpl;
    intros Hbefore Hafter; after_write Hafter; unfold ObjectId in *; simplify_eq; simpl;
    first [congruence | repeat split; reflexivity].
Qed.

Lemma created_fields_fixed_witness :
  exists R',
    recipes (snd (handle (PUT_recipes soup alice soup_body) db0)) !! soup = Some R'
    /\ recipe_fixed soupR R'.
Proof.
  eexists. split; [reflexivity|].
  apply (created_fields_fixed (PUT_recipes soup alice soup_body) db0) with (k := soup);
    reflexivity.
Defined.

(** X4.  If [isForked] is true exactly on the Recipes that have a
    [parentRecipe], it is so after any request. *)
Theorem fork_flags_kept (req : request) (db : DB) :
  (forall k R, recipes db !! k = Some R -> fork_flags R) ->
  forall k R', recipes (snd (handle req db)) !! k = Some R' -> fork_flags R'.
Proof.
  unfold fork_flags.
  destruct req; simpl handle; intros Hinv k0 X'; explore; simpl;
    intros Hafter; after_write Hafter; unfold ObjectId in *; simplify_eq; simpl;
    first [ congruence | eapply Hinv; eassumption
          | split; [intros _; eexists; reflexivity | reflexivity]
          | split; [discriminate | intros [? ?]; discriminate] ].
Qed.

Lemma fork_flags_kept_witness :
  exists R',
    recipes (snd (handle (POST_recipes_fork fresh1 7%N soup bob no_body) db0)) !! fresh1
      = Some R'
    /\ fork_flags R'.
Proof.
  eexists. split; [reflexivity|].
  apply (fork_flags_kept (POST_recipes_fork fresh1 7%N soup bob no_body) db0
           db0_fork_flags fresh1).
  reflexivity.
Defined.

(** X5.  The cascade keeps the comments attached: if every Comment refers
    to a stored Recipe, then so it is after any request. *)
Theorem no_orphans_kept (req : request) (db : DB) :
  no_orphans db -> no_orphans (snd (handle req db)).
Proof.
  unfold no_orphans.
  destruct req; simpl handle; intros Hinv c0 C'; explore; simpl;
    intros Hafter; after_write Hafter; unfold ObjectId in *; simplify_eq; simpl.
  all: try (eapply Hinv; eassumption).
  all: try (apply lookup_insert_is_Some'; right; eapply Hinv; eassumption).
  all: try (apply lookup_delete_is_Some; split;
            [simpl in *; congruence | eapply Hinv; eassumption]).
  all: eauto.
Qed.

Lemma no_orphans_kept_witness :
  no_orphans (snd (handle (DELETE_recipes soup alice) db0)).
Proof.
  apply (no_orphans_kept (DELETE_recipes soup alice) db0). exact db0_no_orphans.
Defined.

(** X6.  If no Folder lists a Recipe twice, none does after any request,
    the recipeId of an add-to-folder request being an ObjectId as
    printed. *)
Theorem folder_members_unique_kept (req : request) (db : DB) :
  printed_member req ->
  folder_members_unique db -> folder_members_unique (snd (handle req db)).
Proof.
  unfold folder_members_unique, printed_member, printed.
  destruct req; simpl handle; intros Hp Hinv k0 F'; explore; simpl;
    intros Hafter; after_write Hafter; unfold ObjectId in *; simplify_eq; simpl.
  all: try (eapply Hinv; eassumption).
  all: try apply NoDup_nil_2.
  - apply NoDup_push; [assumption | eapply Hinv; eassumption].
  - rewrite filter_other_recipes. apply NoDup_filter. eapply Hinv; eassumption.
Qed.

Lemma folder_members_unique_kept_witness :
  folder_members_unique (snd (handle (PUT_folders_recipes shelf soup alice) db0)).
Proof.
  apply (folder_members_unique_kept (PUT_folders_recipes shelf soup alice) db0).
  - reflexivity.
  - intros k F H. simpl in H. apply lookup_singleton_Some in H as [<- <-].
    simpl. apply NoDup_cons_2; [|apply NoDup_singleton].
    intros Hin. apply list_elem_of_singleton in Hin. discriminate.
Defined.

(** ** Creating a Recipe *)

(** X7.  POST /api/recipes answers 400 exactly when the payload lacks a
    non-empty title, a non-empty description, at least one ingredient, at
    least one instruction, or a cookingTime or a servings that prints as
    plain digits (a number below 10^21 in magnitude); the answer then
    lists the failed checks and nothing is written. *)
Theorem recipes_post_validation (newId : ObjectId) (now : N) (uid : string)
    (b : RecipeBody) (db : DB) :
  (status (fst (recipes_post newId now uid b db)) = 400%nat <->
   ~ exists t d i s c v,
       b_title b = Some t /\ t <> "" /\ b_description b = Some d /\ d <> ""
       /\ b_ingredients b = Some i /\ i <> [] /\ b_instructions b = Some s /\ s <> []
       /\ b_cookingTime b = Some c /\ Z.abs c < 10 ^ 21
       /\ b_servings b = Some v /\ Z.abs v < 10 ^ 21)
  /\ (status (fst (recipes_post newId now uid b db)) = 400%nat ->
        recipes_post newId now uid b db = (ValidationFailed (validate_recipe b), db)).
Proof.
  rewrite <- validate_recipe_ok.
  unfold recipes_post. destruct (validate_recipe b) as [|e errs] eqn:Hv.
  - split.
    + split; [|intros H; contradiction H; reflexivity].
      unfold try_catch, bind, findById, new_Recipe, Recipe_insert, ret, throw, reply, res_json.
      simpl. repeat (branch; simpl); discriminate.
    + unfold try_catch, bind, findById, new_Recipe, Recipe_insert, ret, throw, reply, res_json.
      simpl. repeat (branch; simpl); discriminate.
  - split; [|reflexivity]. split; [discriminate | reflexivity].
Qed.

Lemma recipes_post_validation_witness :
  recipes_post fresh1 7%N alice no_body db0
    = (ValidationFailed (validate_recipe no_body), db0).
Proof.
  apply (recipes_post_validation fresh1 7%N alice no_body db0). reflexivity.
Defined.



(** X9.  POST /api/recipes with a valid payload whose [parentRecipe] is a
    non-empty string that names no stored Recipe creates nothing: it
    answers 404 "Parent recipe not found" when the string is an ObjectId,
    and 500 when it is not one. *)
Theorem recipes_post_parent_unresolved (newId : ObjectId) (now : N) (uid : string)
    (b : RecipeBody) (p : string) (db : DB) :
  validate_recipe b = [] ->
  b_parentRecipe b = Some p ->
  p <> "" ->
  (castObjectId p = None -> recipes_post newId now uid b db = (ServerError, db))
  /\ (forall k, castObjectId p = Some k -> recipes db !! k = None ->
        recipes_post newId now uid b db
          = ({| status := 404; body := Msg "Parent recipe not found" |}, db)).
Proof.
  intros Hv Hp Hne.
  unfold recipes_post. rewrite Hv, Hp.
  unfold try_catch, bind, pick, truthyS.
  apply String.eqb_neq in Hne. rewrite Hne. simpl. split.
  - intros Hc. unfold findById. rewrite Hc. reflexivity.
  - intros k Hc Hk. rewrite (findById_missing recipes p k db Hc Hk). reflexivity.
Qed.

Lemma recipes_post_parent_unresolved_witness :
  recipes_post fresh1 7%N carol soup_body (snd (recipes_delete stew bob db0))
    = ({| status := 404; body := Msg "Parent recipe not found" |},
       snd (recipes_delete stew bob db0)).
Proof.
  apply (recipes_post_parent_unresolved fresh1 7%N carol soup_body stew
           (snd (recipes_delete stew bob db0))) with (k := stew);
    try reflexivity.
  discriminate.
Defined.

(** ** Who may write *)

(** X10.  A user who is not the owner of a Recipe can neither update it,
    delete it nor attach an image to it: each request is answered 401 and
    writes nothing (for the image, whether or not a file was sent). *)
Theorem recipes_forbidden (db : DB) (id : string) (k : ObjectId) (R : Recipe.t)
    (uid : string) (b : RecipeBody) (file : option string) :
  castObjectId id = Some k ->
  recipes db !! k = Some R ->
  Recipe.user R <> uid ->
  recipes_put id uid b db = (Forbidden, db)
  /\ recipes_delete id uid db = (Forbidden, db)
  /\ recipes_image id uid file db = (Forbidden, db).
Proof.
  intros Hc HR Hne.
  pose proof (proj2 (eqb_toString_false (Recipe.user R) uid) Hne) as Hb.
  repeat split.
  - unfold recipes_put, try_catch, bind.
    rewrite (findById_found recipes id k R db Hc HR), Hb. reflexivity.
  - unfold recipes_delete, try_catch, bind.
    rewrite (findById_found recipes id k R db Hc HR), Hb. reflexivity.
  - unfold recipes_image, try_catch, bind.
    rewrite (findById_found recipes id k R db Hc HR), Hb. reflexivity.
Qed.

Lemma recipes_forbidden_witness :
  recipes_put soup bob plain_body db0 = (Forbidden, db0)
  /\ recipes_delete soup bob db0 = (Forbidden, db0)
  /\ recipes_image soup bob None db0 = (Forbidden, db0).
Proof.
  apply (recipes_forbidden db0 soup soup soupR bob plain_body None);
    try reflexivity.
  discriminate.
Defined.

(** X11.  A user who is not the owner of a Folder can neither update it,
    delete it, nor remove a Recipe from it, nor add an existing Recipe to
    it: each request is answered 401 and writes nothing. *)
Theorem folders_forbidden (db : DB) (id recipeId : string) (k : ObjectId)
    (F : Folder.t) (uid : string) (b : FolderBody) :
  castObjectId id = Some k ->
  folders db !! k = Some F ->
  Folder.user F <> uid ->
  folders_put id uid b db = (Forbidden, db)
  /\ folders_delete id uid db = (Forbidden, db)
  /\ folders_removeRecipe id recipeId uid db = (Forbidden, db)
  /\ (forall r X, castObjectId recipeId = Some r -> recipes db !! r = Some X ->
        folders_addRecipe id recipeId uid db = (Forbidden, db)).
Proof.
  intros Hc HF Hne.
  pose proof (proj2 (eqb_toString_false (Folder.user F) uid) Hne) as Hb.
  repeat split.
  - unfold folders_put, try_catch, bind.
    rewrite (findById_found folders id k F db Hc HF), Hb. reflexivity.
  - unfold folders_delete, try_catch, bind.
    rewrite (findById_found folders id k F db Hc HF), Hb. reflexivity.
  - unfold folders_removeRecipe, try_catch, bind.
    rewrite (findById_found folders id k F db Hc HF), Hb. reflexivity.
  - intros r X Hr HX. unfold folders_addRecipe, try_catch, bind.
    rewrite (findById_found folders id k F db Hc HF).
    rewrite (findById_found recipes recipeId r X db Hr HX), Hb. reflexivity.
Qed.

Lemma folders_forbidden_witness :
  folders_put shelf bob rename_body db0 = (Forbidden, db0)
  /\ folders_delete shelf bob db0 = (Forbidden, db0)
  /\ folders_removeRecipe shelf stew bob db0 = (Forbidden, db0)
  /\ folders_addRecipe shelf soup bob db0 = (Forbidden, db0).
Proof.
  destruct (folders_forbidden db0 shelf soup shelf shelfF bob rename_body)
    as (Hput & Hdel & _ & Hadd); try reflexivity; try discriminate.
  destruct (folders_forbidden db0 shelf stew shelf shelfF bob rename_body)
    as (_ & _ & Hrem & _); try reflexivity; try discriminate.
  split; [exact Hput|]. split; [exact Hdel|]. split; [exact Hrem|].
  apply (Hadd soup soupR); reflexivity.
Defined.

(** X12.  Only its author may edit a Comment: PUT
    /api/comments/:recipeId/:commentId with a non-empty text replaces the
    text, and nothing else, when the user is the author, and answers 401
    without writing for any other user, the owner of the Recipe included. *)
Theorem comments_put_author_only (db : DB) (recipeId commentId : string)
    (c : ObjectId) (C : Comment.t) (uid : string) (text : string) :
  castObjectId commentId = Some c ->
  comments db !! c = Some C ->
  Comment.recipe C = recipeId ->
  text <> "" ->
  (Comment.user C = uid ->
     comments_put recipeId commentId uid (Some text) db
       = (OK (CommentDoc c (Comment.set_text text C)),
          with_comments (<[c:=Comment.set_text text C]> (comments db))
            (UpdateOne comments_c c) db))
  /\ (Comment.user C <> uid ->
        comments_put recipeId commentId uid (Some text) db = (Forbidden, db)).
Proof.
  intros Hc HC Hr Ht.
  unfold comments_put, validate_text, check, truthyS.
  apply String.eqb_neq in Ht. rewrite Ht. simpl.
  unfold try_catch, bind.
  rewrite (findById_found comments commentId c C db Hc HC).
  rewrite (proj2 (eqb_toString_true (Comment.recipe C) recipeId) Hr). simpl.
  split; intros Hu.
  - rewrite (proj2 (eqb_toString_true (Comment.user C) uid) Hu). simpl.
    unfold Comment_save, Comment_validate, required. simpl. rewrite Ht. reflexivity.
  - rewrite (proj2 (eqb_toString_false (Comment.user C) uid) Hu). reflexivity.
Qed.

Lemma comments_put_author_only_witness :
  comments_put soup note1 bob (Some "Very nice") db0
    = (OK (CommentDoc note1 (Comment.set_text "Very nice" note1C)),
       with_comments (<[note1:=Comment.set_text "Very nice" note1C]> (comments db0))
         (UpdateOne comments_c note1) db0)
  /\ comments_put soup note1 alice (Some "Very nice") db0 = (Forbidden, db0).
Proof.
  split.
  - apply (comments_put_author_only db0 soup note1 note1 note1C bob "Very nice");
      try reflexivity; discriminate.
  - apply (comments_put_author_only db0 soup note1 note1 note1C alice "Very nice");
      try reflexivity; discriminate.
Defined.

(** X13.  POST /api/recipes/:id/image by the owner of a Recipe that
    passes the schema's validators stores "/uploads/" followed by the name
    of the uploaded file as the image of the Recipe and changes no other
    field; when the stored Recipe fails the validators (PUT can store
    such a Recipe) the save is refused: 500 and no write; without a file
    the answer is 400 and nothing is written. *)
Theorem recipes_image_upload (db : DB) (id : string) (k : ObjectId) (R : Recipe.t)
    (uid : string) :
  castObjectId id = Some k ->
  recipes db !! k = Some R ->
  Recipe.user R = uid ->
  (Recipe_validate R = true ->
   forall filename,
     recipes_image id uid (Some filename) db
       = (OK (RecipeDoc k (Recipe.set_image ("/uploads/" ++ filename) R)),
          with_recipes (<[k:=Recipe.set_image ("/uploads/" ++ filename) R]> (recipes db))
            (UpdateOne recipes_c k) db))
  /\ (Recipe_validate R = false ->
      forall filename, recipes_image id uid (Some filename) db = (ServerError, db))
  /\ recipes_image id uid None db
     = ({| status := 400; body := Msg "No file uploaded" |}, db).
Proof.
  intros Hc HR Hu.
  unfold recipes_image, try_catch, bind.
  rewrite (findById_found recipes id k R db Hc HR).
  rewrite (proj2 (eqb_toString_true (Recipe.user R) uid) Hu). simpl.
  split; [|split]; [intros Hvalid filename | intros Hvalid filename | reflexivity];
    unfold Recipe_save;
    rewrite (Recipe_validate_ext _ R) by reflexivity;
    rewrite Hvalid; reflexivity.
Qed.

Lemma recipes_image_upload_witness :
  recipes_image soup alice (Some "soup.png") db0
    = (OK (RecipeDoc soup (Recipe.set_image "/uploads/soup.png" soupR)),
       with_recipes (<[soup:=Recipe.set_image "/uploads/soup.png" soupR]> (recipes db0))
         (UpdateOne recipes_c soup) db0)
  /\ (exists R, recipes db_nameless !! soup = Some R
        /\ recipes_image soup alice (Some "soup.png") db_nameless
           = (ServerError, db_nameless)).
Proof.
  split.
  - apply (recipes_image_upload db0 soup soup soupR alice); reflexivity.
  - eexists. split; [reflexivity|].
    eapply (recipes_image_upload db_nameless soup soup _ alice); reflexivity.
Defined.

(** ** Comments: create and read back *)

(** X14.  POST /api/comments/:recipeId with a non-empty text on an existing
    Recipe stores one new Comment by the user, attached to that Recipe,
    carrying the user's name and avatar as they are now, with no likes;
    reading it back through GET /api/comments/:recipeId/:commentId answers
    that Comment with its author populated. *)
Theorem comments_post_then_get (db : DB) (newId : ObjectId) (now : N)
    (recipeId uid : string) (r : ObjectId) (R : Recipe.t) (U : User.t) (text : string) :
  castObjectId recipeId = Some r ->
  recipes db !! r = Some R ->
  printed uid ->
  users db !! uid = Some U ->
  text <> "" ->
  printed newId ->
  comments db !! newId = None ->
  exists C db',
    comments_post newId now recipeId uid (Some text) db = (OK (CommentDoc newId C), db')
    /\ comments db' = <[newId:=C]> (comments db)
    /\ Comment.user C = uid /\ Comment.recipe C = r /\ Comment.text C = text
    /\ Comment.name C = User.name U /\ Comment.avatar C = User.avatar U
    /\ Comment.likes C = [] /\ Comment.date C = now
    /\ comments_get (toString r) newId db' = (OK (CommentPopulated newId C (Some U)), db').
Proof.
  intros Hr HR Hu HU Ht Hn Hfresh.
  unfold comments_post, validate_text, check, truthyS.
  apply String.eqb_neq in Ht. rewrite Ht. simpl.
  unfold try_catch, bind.
  rewrite (findById_found users uid uid U db Hu HU).
  rewrite (findById_found recipes recipeId r R db Hr HR).
  unfold Comment_insert, Comment_validate, required. simpl.
  rewrite Ht, Hfresh. simpl.
  eexists. eexists. split; [reflexivity|]. simpl.
  repeat split.
  unfold comments_get, try_catch, bind, findById. rewrite Hn. simpl.
  rewrite lookup_insert_eq. simpl.
  unfold toString. rewrite String.eqb_refl. simpl. unfold ObjectId in *.
  rewrite HU. reflexivity.
Qed.

Lemma comments_post_then_get_witness :
  exists C db',
    comments_post fresh1 9%N soup carol (Some "Yum") db0 = (OK (CommentDoc fresh1 C), db')
    /\ Comment.recipe C = soup
    /\ Comment.name C = Some "Carol"
    /\ comments_get soup fresh1 db'
       = (OK (CommentPopulated fresh1 C
                (Some {| User.name := Some "Carol"; User.avatar := None |})), db').
Proof.
  destruct (comments_post_then_get db0 fresh1 9%N soup carol soup soupR
              {| User.name := Some "Carol"; User.avatar := None |} "Yum")
    as (C & db' & Hrun & _ & _ & Hr & _ & Hn & _ & _ & _ & Hget);
    try reflexivity; try discriminate.
  exists C, db'. split; [exact Hrun|]. split; [exact Hr|]. split; [exact Hn | exact Hget].
Defined.

(** X15.  POST /api/comments/:recipeId creates nothing when the text is
    missing or empty (400, "Text is required") and nothing when the Recipe
    does not exist (404). *)
Theorem comments_post_refused (db : DB) (newId : ObjectId) (now : N)
    (recipeId uid : string) (text : option string) :
  (truthyS text = false ->
     comments_post newId now recipeId uid text db
       = (ValidationFailed ["Text is required"], db))
  /\ (truthyS text = true -> printed uid ->
      forall r, castObjectId recipeId = Some r -> recipes db !! r = None ->
        comments_post newId now recipeId uid text db = (NotFound "Recipe", db)).
Proof.
  split.
  - intros Ht. unfold comments_post, validate_text, check. rewrite Ht. reflexivity.
  - intros Ht Hu r Hr HR. unfold comments_post, validate_text, check. rewrite Ht.
    unfold try_catch, bind, findById. rewrite Hu, Hr, HR. simpl.
    destruct (users db !! uid); reflexivity.
Qed.

Lemma comments_post_refused_witness :
  comments_post fresh1 9%N soup carol (Some "") db0
    = (ValidationFailed ["Text is required"], db0)
  /\ comments_post fresh1 9%N gone carol (Some "Yum") db0 = (NotFound "Recipe", db0).
Proof.
  split.
  - apply (comments_post_refused db0 fresh1 9%N soup carol (Some "")). reflexivity.
  - apply (comments_post_refused db0 fresh1 9%N gone carol (Some "Yum")) with (r := gone);
      reflexivity.
Defined.

(** ** Folders: create, update, delete *)

(** X16.  POST /api/folders answers 400 "Name is required" and writes
    nothing when the name is missing or empty; otherwise it stores one new
    Folder of the user with that name, the description as sent, no
    members, and [isPublic] false unless the payload says true. *)
Theorem folders_post_created (db : DB) (newId : ObjectId) (now : N) (uid : string)
    (b : FolderBody) :
  (truthyS (b_name b) = false ->
     folders_post newId now uid b db = (ValidationFailed ["Name is required"], db))
  /\ (forall name, b_name b = Some name -> name <> "" -> printed uid ->
      folders db !! newId = None ->
      exists F,
        folders_post newId now uid b db
          = (OK (FolderDoc newId F),
             with_folders (<[newId:=F]> (folders db)) (InsertOne folders_c newId) db)
        /\ Folder.user F = uid /\ Folder.name F = name
        /\ Folder.description F = b_folder_description b
        /\ Folder.recipes F = []
        /\ Folder.isPublic F = default false (b_isPublic b)
        /\ Folder.date F = now).
Proof.
  split.
  - intros Hn. unfold folders_post, check. rewrite Hn. reflexivity.
  - intros name Hn Hne Hu Hfresh. unfold folders_post, check, truthyS.
    rewrite Hn. apply String.eqb_neq in Hne. rewrite Hne. simpl.
    unfold try_catch, bind. rewrite Hu. simpl.
    unfold Folder_insert, Folder_validate, required. simpl.
    rewrite Hne, Hfresh. simpl.
    eexists. split; [reflexivity|]. repeat split.
Qed.

Lemma folders_post_created_witness :
  exists F,
    fst (folders_post fresh1 9%N bob rename_body db0) = OK (FolderDoc fresh1 F)
    /\ Folder.user F = bob /\ Folder.recipes F = [] /\ Folder.isPublic F = false.
Proof.
  destruct (folders_post_created db0 fresh1 9%N bob rename_body) as [_ H].
  destruct (H "Best") as (F & Hrun & Hu & _ & _ & Hr & Hp & _);
    try reflexivity; try discriminate.
  exists F. rewrite Hrun. split; [reflexivity|]. split; [exact Hu|].
  split; [exact Hr | exact Hp].
Defined.

(** X17.  PUT /api/folders/:id by the owner replaces the name only when
    the payload has a non-empty one, and replaces the description and
    [isPublic] whenever the payload has them, an empty description and
    [false] included; the members, the owner and the date stay. *)
Theorem folders_put_merge (db : DB) (id : string) (k : ObjectId) (F : Folder.t)
    (uid : string) (b : FolderBody) :
  castObjectId id = Some k ->
  folders db !! k = Some F ->
  Folder.user F = uid ->
  exists F',
    folders_put id uid b db
      = (OK (FolderDoc k F'),
         with_folders (<[k:=F']> (folders db)) (UpdateOne folders_c k) db)
    /\ merge_patch truthyS (b_name b) (Folder.name F) (Folder.name F')
    /\ (forall d, b_folder_description b = Some d -> Folder.description F' = Some d)
    /\ (b_folder_description b = None -> Folder.description F' = Folder.description F)
    /\ (forall p, b_isPublic b = Some p -> Folder.isPublic F' = p)
    /\ (b_isPublic b = None -> Folder.isPublic F' = Folder.isPublic F)
    /\ Folder.recipes F' = Folder.recipes F
    /\ Folder.user F' = Folder.user F
    /\ Folder.date F' = Folder.date F.
Proof.
  intros Hc HF Hu.
  unfold folders_put, try_catch, bind.
  rewrite (findById_found folders id k F db Hc HF).
  rewrite (proj2 (eqb_toString_true (Folder.user F) uid) Hu). simpl.
  unfold Folder_findByIdAndUpdate. rewrite Hc, HF. simpl.
  eexists. split; [reflexivity|]. simpl.
  repeat apply conj; try reflexivity; try apply merge_patch_default;
    first [intros ? ->; reflexivity | intros ->; reflexivity].
Qed.

Lemma folders_put_merge_witness :
  exists F',
    fst (folders_put shelf alice rename_body db0) = OK (FolderDoc shelf F')
    /\ Folder.name F' = "Best"
    /\ Folder.description F' = Some ""
    /\ Folder.isPublic F' = false
    /\ Folder.recipes F' = [stew; gone].
Proof.
  destruct (folders_put_merge db0 shelf shelf shelfF alice rename_body)
    as (F' & Hrun & [Hn _] & Hd & _ & Hp & _ & Hr & _); try reflexivity.
  exists F'. rewrite Hrun. split; [reflexivity|].
  split; [apply (Hn "Best"); reflexivity|].
  split; [apply Hd; reflexivity|].
  split; [apply Hp; reflexivity | exact Hr].
Defined.

(** X18.  DELETE /api/folders/:id by the owner removes that Folder and
    nothing else: the Recipes it listed and all Comments are still
    stored. *)
Theorem folders_delete_only_folder (db : DB) (id : string) (k : ObjectId)
    (F : Folder.t) (uid : string) :
  castObjectId id = Some k ->
  folders db !! k = Some F ->
  Folder.user F = uid ->
  exists db',
    folders_delete id uid db = (OK (Msg "Folder removed"), db')
    /\ folders db' = delete k (folders db)
    /\ (forall r, In r (Folder.recipes F) -> recipes db' !! r = recipes db !! r)
    /\ recipes db' = recipes db
    /\ comments db' = comments db.
Proof.
  intros Hc HF Hu.
  unfold folders_delete, try_catch, bind.
  rewrite (findById_found folders id k F db Hc HF).
  rewrite (proj2 (eqb_toString_true (Folder.user F) uid) Hu). simpl.
  eexists. split; [reflexivity|]. simpl. repeat split.
Qed.

Lemma folders_delete_only_folder_witness :
  exists db',
    folders_delete shelf alice db0 = (OK (Msg "Folder removed"), db')
    /\ folders db' = delete shelf (folders db0)
    /\ recipes db' !! stew = Some stewR.
Proof.
  destruct (folders_delete_only_folder db0 shelf shelf shelfF alice)
    as (db' & Hrun & Hf & Hr & _); try reflexivity.
  exists db'. split; [exact Hrun|]. split; [exact Hf|].
  rewrite (Hr stew); [reflexivity | left; reflexivity].
Defined.

(** ** Identifiers that are not ObjectIds *)

(** X19.  An id that is not an ObjectId never resolves and nothing is
    written, but the status depends on the route: the delete routes of
    recipes, folders and comments and the single reads answer 404; update,
    fork, image, like, unlike, folder membership and the two listings that
    take an id answer 500. *)
Theorem malformed_id_answers (id : string) (other uid : string) (newId : ObjectId)
    (now : N) (b : RecipeBody) (fb : FolderBody) (file : option string) (db : DB) :
  castObjectId id = None ->
  (recipes_delete id uid db = (NotFound "Recipe", db)
   /\ folders_delete id uid db = (NotFound "Folder", db)
   /\ comments_get other id db = (NotFound "Comment", db)
   /\ comments_delete other id uid db = (NotFound "Comment", db)
   /\ recipes_get id db = plain (NotFound "Recipe")
   /\ folders_get id uid db = plain (NotFound "Folder"))
  /\ (recipes_put id uid b db = (ServerError, db)
      /\ recipes_fork newId now id uid b db = (ServerError, db)
      /\ recipes_image id uid file db = (ServerError, db)
      /\ recipes_like id uid db = (ServerError, db)
      /\ recipes_unlike id uid db = (ServerError, db)
      /\ comments_like other id uid db = (ServerError, db)
      /\ comments_unlike other id uid db = (ServerError, db)
      /\ folders_put id uid fb db = (ServerError, db)
      /\ folders_addRecipe id other uid db = (ServerError, db)
      /\ folders_removeRecipe id other uid db = (ServerError, db)
      /\ comments_list id db = plain ServerError
      /\ recipes_by_user id db = plain ServerError).
Proof.
  intros Hc.
  unfold recipes_delete, folders_delete, comments_get, comments_delete, recipes_get,
    folders_get, recipes_put, recipes_fork, recipes_image, recipes_like, recipes_unlike,
    comments_like, comments_unlike, folders_put, folders_addRecipe, folders_removeRecipe,
    comments_list, recipes_by_user, try_catch, bind, findById.
  rewrite Hc. simpl. repeat split.
Qed.

Lemma malformed_id_answers_witness :
  recipes_delete "soup" alice db0 = (NotFound "Recipe", db0)
  /\ recipes_put "soup" alice no_body db0 = (ServerError, db0).
Proof.
  destruct (malformed_id_answers "soup" soup alice fresh1 7%N no_body rename_body None db0)
    as ((Hdel & _) & (Hput & _)); [reflexivity|].
  split; [exact Hdel | exact Hput].
Defined.

(** ** How the routes compose *)

Lemma filter_absent (uid : string) (l : list Like) :
  existsb (fun like => String.eqb (toString (like_user like)) uid) l = false ->
  List.filter (fun like => negb (String.eqb (toString (like_user like)) uid)) l = l.
Proof.
  induction l as [|x l IH]; simpl; [reflexivity|].
  intros H. apply orb_false_iff in H as [Hx Hl]. rewrite Hx. simpl.
  rewrite IH by exact Hl. reflexivity.
Qed.

Lemma set_likes_same (R : Recipe.t) : Recipe.set_likes (Recipe.likes R) R = R.
Proof. destruct R. reflexivity. Qed.

Lemma Comment_set_likes_same (C : Comment.t) : Comment.set_likes (Comment.likes C) C = C.
Proof. destruct C. reflexivity. Qed.
(** X20.  Like followed by unlike is a round trip.  For an entity that
    passes its schema's validators and whose likes do not have the user:
    after like the user is in front of the list and a second like answers
    AlreadyLiked without writing; unlike then answers the original list and
    leaves the recipes and the comments exactly as they were before the
    like; a second unlike answers NotYetLiked. *)
Theorem like_then_unlike (e : entity) (db : DB) (uid : string) (L : list Like) :
  entity_printed e ->
  printed uid ->
  passes_schema e db ->
  likes_of e db = Some L ->
  ~ has_user uid L ->
  likes_of e (snd (like e uid db)) = Some ({| like_user := uid |} :: L)
  /\ like e uid (snd (like e uid db)) = (AlreadyLiked e, snd (like e uid db))
  /\ exists db2,
       unlike e uid (snd (like e uid db)) = (OK (Likes L), db2)
       /\ recipes db2 = recipes db
       /\ comments db2 = comments db
       /\ likes_of e db2 = Some L
       /\ unlike e uid db2 = (NotYetLiked e, db2).
Proof.
  intros He Hu Hpass HL Hno. apply some_has_user_false in Hno.
  assert (Heq : String.eqb (toString uid) uid = true) by apply String.eqb_refl.
  destruct e as [id | recipeId commentId]; simpl in *.
  - destruct (recipes db !! id) as [R|] eqn:HR; [|discriminate].
    simpl in HL. injection HL as <-.
    pose proof (Hpass R eq_refl) as HV.
    set (R1 := Recipe.set_likes ({| like_user := uid |} :: Recipe.likes R) R).
    set (db1 := with_recipes (<[id:=R1]> (recipes db)) (UpdateOne recipes_c id) db).
    assert (Hlike : recipes_like id uid db = (OK (Likes (Recipe.likes R1)), db1)).
    { unfold recipes_like, try_catch, bind.
      rewrite (findById_found recipes id id R db He HR), Hno.
      unfold new_Like. rewrite Hu. simpl. unfold Recipe_save.
      rewrite (Recipe_validate_ext _ R) by reflexivity. rewrite HV. reflexivity. }
    rewrite Hlike. simpl snd.
    assert (H1 : recipes db1 !! id = Some R1) by (simpl; apply lookup_insert_eq).
    split; [rewrite H1; reflexivity|]. split.
    + unfold recipes_like, try_catch, bind.
      rewrite (findById_found recipes id id R1 db1 He H1).
      simpl. rewrite Heq. reflexivity.
    + unfold recipes_unlike at 1, try_catch, bind.
      rewrite (findById_found recipes id id R1 db1 He H1).
      simpl. rewrite Heq. simpl. rewrite (filter_absent uid _ Hno).
      unfold Recipe_save.
      rewrite (Recipe_validate_ext _ R) by reflexivity. rewrite HV.
      eexists. split; [reflexivity|]. simpl.
      assert (HR' : Recipe.set_likes (Recipe.likes R) R1 = R) by (destruct R; reflexivity).
      rewrite HR', insert_insert_eq, (insert_id _ _ _ HR).
      repeat split.
      * rewrite HR. reflexivity.
      * unfold recipes_unlike, try_catch, bind.
        rewrite (findById_found recipes id id R _ He) by exact HR.
        rewrite Hno. reflexivity.
  - destruct (comments db !! commentId) as [C|] eqn:HC; [|discriminate].
    simpl in HL.
    destruct (decide (Comment.recipe C = recipeId)) as [Hr|]; [|discriminate].
    injection HL as <-.
    pose proof (Hpass C eq_refl) as HV. unfold Comment_validate in HV.
    pose proof (proj2 (eqb_toString_true (Comment.recipe C) recipeId) Hr) as Hrb.
    set (C1 := Comment.set_likes ({| like_user := uid |} :: Comment.likes C) C).
    set (db1 := with_comments (<[commentId:=C1]> (comments db))
                  (UpdateOne comments_c commentId) db).
    assert (Hlike : comments_like recipeId commentId uid db
                    = (OK (Likes (Comment.likes C1)), db1)).
    { unfold comments_like, try_catch, bind.
      rewrite (findById_found comments commentId commentId C db He HC), Hrb. simpl.
      rewrite Hno. unfold new_Like. rewrite Hu. simpl.
      unfold Comment_save, Comment_validate. simpl. rewrite HV. reflexivity. }
    rewrite Hlike. simpl snd.
    assert (H1 : comments db1 !! commentId = Some C1) by (simpl; apply lookup_insert_eq).
    split.
    { rewrite H1. simpl.
      destruct (decide (Comment.recipe C = recipeId)); [reflexivity | contradiction]. }
    split.
    + unfold comments_like, try_catch, bind.
      rewrite (findById_found comments commentId commentId C1 db1 He H1).
      simpl. rewrite Hrb. simpl. rewrite Heq. reflexivity.
    + unfold comments_unlike at 1, try_catch, bind.
      rewrite (findById_found comments commentId commentId C1 db1 He H1).
      simpl. rewrite Hrb. simpl. rewrite Heq. simpl. rewrite (filter_absent uid _ Hno).
      unfold Comment_save, Comment_validate. simpl. rewrite HV.
      eexists. split; [reflexivity|]. simpl.
      assert (HC' : Comment.set_likes (Comment.likes C) C1 = C) by (destruct C; reflexivity).
      rewrite HC', insert_insert_eq, (insert_id _ _ _ HC).
      repeat split.
      * rewrite HC. simpl.
        destruct (decide (Comment.recipe C = recipeId)); [reflexivity | contradiction].
      * unfold comments_unlike, try_catch, bind.
        rewrite (findById_found comments commentId commentId C _ He) by exact HC.
        rewrite Hrb. simpl. rewrite Hno. reflexivity.
Qed.

Lemma like_then_unlike_witness :
  exists db2,
    unlike (ARecipe soup) alice (snd (like (ARecipe soup) alice db0))
      = (OK (Likes [ {| like_user := bob |} ]), db2)
    /\ recipes db2 = recipes db0
    /\ comments db2 = comments db0.
Proof.
  destruct (like_then_unlike (ARecipe soup) db0 alice [ {| like_user := bob |} ])
    as (_ & _ & db2 & Hrun & Hr & Hc & _); try reflexivity.
  - exact db0_soup_valid.
  - intros H. apply Exists_cons in H as [H | H]; [discriminate | inversion H].
  - exists db2. repeat split; assumption.
Defined.

Lemma filter_pushed (l : list ObjectId) (id : string) :
  includes l id = false ->
  List.filter (fun recipe => negb (String.eqb (toString recipe) id)) (l ++ [id]) = l.
Proof.
  unfold includes. induction l as [|x l IH]; simpl.
  - intros _. unfold toString. rewrite String.eqb_refl. reflexivity.
  - intros H. apply orb_false_iff in H as [Hx Hl]. rewrite Hx. simpl.
    rewrite IH by exact Hl. reflexivity.
Qed.

(** X21.  Adding a Recipe to a Folder and removing it again is a round
    trip, for a Folder that passes its schema's validators (a non-empty
    name) and a Recipe id written in both requests as the ObjectId prints
    (lower-case digits): when the Recipe was not a member, the removal
    answers the Folder as it was before the addition, the folders and the
    recipes are exactly as before, and a second removal answers NotMember.
    Written with an upper-case digit the id is added all the same, but the
    removal under that spelling answers NotMember and the Recipe stays in
    the Folder. *)
Theorem folders_add_then_remove (db : DB) (id recipeId uid : string) (k : ObjectId)
    (F : Folder.t) (X : Recipe.t) :
  castObjectId id = Some k ->
  printed recipeId ->
  folders db !! k = Some F ->
  Folder_validate F = true ->
  Folder.user F = uid ->
  recipes db !! recipeId = Some X ->
  ~ In recipeId (Folder.recipes F) ->
  (exists db2,
     folders_removeRecipe id recipeId uid (snd (folders_addRecipe id recipeId uid db))
       = (OK (FolderDoc k F), db2)
     /\ folders db2 = folders db
     /\ recipes db2 = recipes db
     /\ folders_removeRecipe id recipeId uid db2 = (NotMember, db2))
  /\ (forall raw, castObjectId raw = Some recipeId -> raw <> recipeId ->
        Forall printed (Folder.recipes F) ->
        exists db1,
          folders_addRecipe id raw uid db
            = (OK (FolderDoc k (Folder.set_recipes (Folder.recipes F ++ [recipeId]) F)),
               db1)
          /\ folders_removeRecipe id raw uid db1 = (NotMember, db1)
          /\ folders db1 !! k
             = Some (Folder.set_recipes (Folder.recipes F ++ [recipeId]) F)).
Proof.
  intros Hid Hrid HF Hvalid Hu HX Hin. split.
  - apply includes_not_In in Hin.
    rewrite (folders_addRecipe_run db id recipeId uid k recipeId F X Hid Hrid HF Hu HX).
    rewrite Hin, Hvalid. cbv zeta. simpl snd.
    set (F' := Folder.set_recipes (_ ++ _) F).
    set (db1 := with_folders (<[k:=F']> (folders db)) (UpdateOne folders_c k) db).
    assert (HF' : folders db1 !! k = Some F') by (simpl; apply lookup_insert_eq).
    assert (Hin1 : includes (Folder.recipes F') recipeId = true)
      by (apply includes_In; simpl; apply in_or_app; right; left; reflexivity).
    assert (Hback : Folder.set_recipes
                      (filter (fun r => r <> recipeId) (Folder.recipes F')) F' = F).
    { subst F'. destruct F as [fu fn fd fr fp ft]. simpl in Hin.
      unfold Folder.set_recipes. simpl.
      rewrite <- filter_other_recipes. f_equal. exact (filter_pushed fr recipeId Hin). }
    rewrite (folders_removeRecipe_run db1 id recipeId uid k F' Hid HF' Hu).
    rewrite Hin1. change (Folder_validate F') with (Folder_validate F).
    rewrite Hvalid. simpl negb. cbv iota zeta. rewrite Hback.
    eexists. split; [reflexivity|]. simpl.
    rewrite insert_insert_eq, (insert_id _ _ _ HF).
    repeat split.
    erewrite (folders_removeRecipe_run _ id recipeId uid k _ Hid);
      [| simpl; exact HF | exact Hu].
    rewrite Hin. reflexivity.
  - intros raw Hraw Hne Hall.
    pose proof (includes_unprinted _ raw recipeId Hraw Hne Hall) as Hinc.
    rewrite (folders_addRecipe_run db id raw uid k recipeId F X Hid Hraw HF Hu HX).
    rewrite Hinc, Hvalid. simpl.
    eexists. split; [reflexivity|].
    split; [|simpl; apply lookup_insert_eq].
    erewrite (folders_removeRecipe_run _ id raw uid k _ Hid);
      [| simpl; apply lookup_insert_eq | exact Hu].
    simpl.
    assert (Hinc' : includes (Folder.recipes F ++ [recipeId]) raw = false).
    { apply (includes_unprinted _ raw recipeId Hraw Hne).
      apply Forall_app. split; [exact Hall|]. repeat constructor. exact Hrid. }
    unfold ObjectId in *. rewrite Hinc'. reflexivity.
Qed.

Lemma folders_add_then_remove_witness :
  (exists db2,
     folders_removeRecipe shelf soup alice (snd (folders_addRecipe shelf soup alice db0))
       = (OK (FolderDoc shelf shelfF), db2)
     /\ folders db2 = folders db0)
  /\ (exists db1,
        folders_addRecipe shelf SOUP alice db0
          = (OK (FolderDoc shelf (Folder.set_recipes [stew; gone; soup] shelfF)), db1)
        /\ folders_removeRecipe shelf SOUP alice db1 = (NotMember, db1)).
Proof.
  destruct (folders_add_then_remove db0 shelf soup alice shelf shelfF soupR)
    as ((db2 & Hrun & Hf & _) & Hraw); try reflexivity.
  - intros [H | [H | []]]; discriminate.
  - split.
    + exists db2. split; [exact Hrun | exact Hf].
    + destruct (Hraw SOUP) as (db1 & Hadd & Hrem & _);
        [reflexivity | discriminate | repeat constructor |].
      exists db1. split; [exact Hadd | exact Hrem].
Defined.

(** X22.  A fork can be forked.  For an original that passes the
    schema's validators, the second fork names the first fork, not the
    original, as its [parentRecipe], still copies the contents of the
    original, belongs to the second user and starts without likes; the
    original and the first fork stay stored. *)
Theorem fork_of_fork (db : DB) (n1 n2 : ObjectId) (t1 t2 : N) (id : string)
    (k : ObjectId) (S : Recipe.t) (u1 u2 : string) (b1 b2 : RecipeBody) :
  castObjectId id = Some k ->
  recipes db !! k = Some S ->
  Recipe_validate S = true ->
  printed u1 -> printed u2 -> printed n1 ->
  recipes db !! n1 = None -> recipes db !! n2 = None -> n1 <> n2 ->
  exists F1 F2 db2,
    recipes_fork n2 t2 n1 u2 b2 (snd (recipes_fork n1 t1 id u1 b1 db))
      = (OK (RecipeDoc n2 F2), db2)
    /\ recipes db2 !! k = Some S
    /\ recipes db2 !! n1 = Some F1
    /\ recipes db2 !! n2 = Some F2
    /\ Recipe.parentRecipe F1 = Some k
    /\ Recipe.parentRecipe F2 = Some n1
    /\ Recipe.user F1 = u1 /\ Recipe.user F2 = u2
    /\ Recipe.title F2 = Recipe.title S
    /\ Recipe.description F2 = Recipe.description S
    /\ Recipe.ingredients F2 = Recipe.ingredients S
    /\ Recipe.instructions F2 = Recipe.instructions S
    /\ Recipe.cookingTime F2 = Recipe.cookingTime S
    /\ Recipe.servings F2 = Recipe.servings S
    /\ Recipe.image F2 = Recipe.image S
    /\ Recipe.tags F2 = Recipe.tags S
    /\ Recipe.isForked F2 = true
    /\ Recipe.likes F2 = [].
Proof.
  intros Hc HS Hvalid Hu1 Hu2 Hn1 Hf1 Hf2 Hne.
  assert (Hk1 : k <> n1) by congruence.
  assert (Hk2 : k <> n2) by congruence.
  unfold recipes_fork at 2. unfold try_catch, bind.
  rewrite (findById_found recipes id k S db Hc HS).
  unfold new_Recipe. simpl. rewrite Hu1. simpl.
  rewrite (Recipe_validate_ext _ S) by reflexivity. rewrite Hvalid.
  unfold ret, Recipe_insert. rewrite Hf1. simpl.
  unfold recipes_fork, try_catch, bind, findById. rewrite Hn1. simpl.
  rewrite lookup_insert_eq. simpl.
  unfold new_Recipe. simpl. rewrite Hu2. simpl.
  rewrite (Recipe_validate_ext _ S) by reflexivity. rewrite Hvalid.
  unfold ret, Recipe_insert. simpl.
  rewrite lookup_insert_ne by exact Hne. rewrite Hf2. simpl.
  eexists. eexists. eexists. split; [reflexivity|]. simpl.
  rewrite lookup_insert_ne by (intros E; apply Hk2; symmetry; exact E).
  rewrite lookup_insert_ne by (intros E; apply Hk1; symmetry; exact E).
  rewrite lookup_insert_ne by (intros E; apply Hne; symmetry; exact E).
  rewrite !lookup_insert_eq.
  repeat split. exact HS.
Qed.

Lemma fork_of_fork_witness :
  exists F1 F2 db2,
    recipes_fork fresh2 8%N fresh1 carol no_body
      (snd (recipes_fork fresh1 7%N soup bob no_body db0))
      = (OK (RecipeDoc fresh2 F2), db2)
    /\ recipes db2 !! soup = Some soupR
    /\ Recipe.parentRecipe F1 = Some soup
    /\ Recipe.parentRecipe F2 = Some fresh1
    /\ Recipe.title F2 = "Soup".
Proof.
  destruct (fork_of_fork db0 fresh1 fresh2 7%N 8%N soup soup soupR bob carol
              no_body no_body)
    as (F1 & F2 & db2 & Hrun & HS & _ & _ & Hp1 & Hp2 & _ & _ & Ht & _);
    try reflexivity; try discriminate.
  exists F1, F2, db2. split; [exact Hrun|]. split; [exact HS|].
  split; [exact Hp1|]. split; [exact Hp2 | exact Ht].
Defined.

(** X23.  Once its owner has deleted a Recipe, its id resolves nowhere:
    update, delete, fork, image, like and unlike of that id, a new Comment
    on it, adding it to an existing Folder, reading it and listing its
    comments all answer 404 "Recipe not found", and none writes. *)
Theorem deleted_recipe_is_gone (db : DB) (id : string) (k : ObjectId) (R : Recipe.t)
    (uid : string) :
  castObjectId id = Some k ->
  recipes db !! k = Some R ->
  Recipe.user R = uid ->
  exists db1,
    snd (recipes_delete id uid db) = db1
    /\ (forall who b, recipes_put id who b db1 = (NotFound "Recipe", db1))
    /\ (forall who, recipes_delete id who db1 = (NotFound "Recipe", db1))
    /\ (forall newId now who b,
          recipes_fork newId now id who b db1 = (NotFound "Recipe", db1))
    /\ (forall who file, recipes_image id who file db1 = (NotFound "Recipe", db1))
    /\ (forall who, recipes_like id who db1 = (NotFound "Recipe", db1))
    /\ (forall who, recipes_unlike id who db1 = (NotFound "Recipe", db1))
    /\ (forall newId now who text, printed who -> text <> "" ->
          comments_post newId now id who (Some text) db1 = (NotFound "Recipe", db1))
    /\ (forall fid f who, castObjectId fid = Some f -> is_Some (folders db !! f) ->
          folders_addRecipe fid id who db1 = (NotFound "Recipe", db1))
    /\ recipes_get id db1 = plain (NotFound "Recipe")
    /\ comments_list id db1 = plain (NotFound "Recipe").
Proof.
  intros Hc HR Hu.
  unfold recipes_delete at 1, try_catch, bind.
  rewrite (findById_found recipes id k R db Hc HR).
  rewrite (proj2 (eqb_toString_true (Recipe.user R) uid) Hu). simpl.
  unfold Comment_deleteMany_recipe. rewrite Hc. simpl.
  eexists. split; [reflexivity|].
  match goal with |- context [recipes_get id ?d] => set (db1 := d) end.
  assert (H1 : recipes db1 !! k = None) by (simpl; apply lookup_delete_eq).
  pose proof (findById_missing recipes id k db1 Hc H1) as Hmiss.
  repeat apply conj.
  - intros who b. unfold recipes_put, try_catch, bind. rewrite Hmiss. reflexivity.
  - intros who. unfold recipes_delete, try_catch, bind. rewrite Hmiss. reflexivity.
  - intros newId now who b. unfold recipes_fork, try_catch, bind. rewrite Hmiss. reflexivity.
  - intros who file. unfold recipes_image, try_catch, bind. rewrite Hmiss. reflexivity.
  - intros who. unfold recipes_like, try_catch, bind. rewrite Hmiss. reflexivity.
  - intros who. unfold recipes_unlike, try_catch, bind. rewrite Hmiss. reflexivity.
  - intros newId now who text Hw Ht. unfold comments_post, validate_text, check, truthyS.
    apply String.eqb_neq in Ht. rewrite Ht. simpl.
    unfold try_catch, bind.
    unfold findById at 1. rewrite Hw. simpl. rewrite Hmiss.
    destruct (users db !! who); reflexivity.
  - intros fid f who Hf [F HF]. unfold folders_addRecipe, try_catch, bind.
    rewrite (findById_found folders fid f F db1 Hf) by exact HF.
    rewrite Hmiss. reflexivity.
  - unfold recipes_get. rewrite Hmiss. reflexivity.
  - unfold comments_list. rewrite Hmiss. reflexivity.
Qed.

Lemma deleted_recipe_is_gone_witness :
  recipes_like soup bob (snd (recipes_delete soup alice db0))
    = (NotFound "Recipe", snd (recipes_delete soup alice db0))
  /\ folders_addRecipe shelf soup alice (snd (recipes_delete soup alice db0))
     = (NotFound "Recipe", snd (recipes_delete soup alice db0)).
Proof.
  destruct (deleted_recipe_is_gone db0 soup soup soupR alice)
    as (db1 & <- & _ & _ & _ & _ & Hlike & _ & _ & Hadd & _); try reflexivity.
  split; [apply Hlike|].
  apply (Hadd shelf shelf alice); [reflexivity | eexists; reflexivity].
Defined.

(** ** Reading *)

#[global] Instance newest_first_total {D} (date : D -> N) : Total (newest_first date).
Proof. intros a b. unfold newest_first. lia. Qed.

#[global] Instance newest_first_trans {D} (date : D -> N) : Transitive (newest_first date).
Proof. intros a b c. unfold newest_first. lia. Qed.

Lemma elem_of_find {D} (coll : DB -> gmap string D) (filter : D -> bool)
    (date : D -> N) (db : DB) (k : ObjectId) (d : D) :
  (k, d) ∈ Model_find coll filter date db <-> coll db !! k = Some d /\ filter d = true.
Proof.
  unfold Model_find. rewrite merge_sort_Permutation.
  rewrite list_elem_of_In, filter_In, <- list_elem_of_In, elem_of_map_to_list.
  reflexivity.
Qed.

Lemma find_sorted {D} (coll : DB -> gmap string D) (filter : D -> bool)
    (date : D -> N) (db : DB) :
  StronglySorted (newest_first date) (Model_find coll filter date db).
Proof. unfold Model_find. apply StronglySorted_merge_sort; apply _. Qed.

Lemma find_NoDup {D} (coll : DB -> gmap string D) (filter : D -> bool)
    (date : D -> N) (db : DB) :
  NoDup (Model_find coll filter date db).*1.
Proof.
  unfold Model_find. rewrite merge_sort_Permutation.
  pose proof (NoDup_fst_map_to_list (coll db)) as H.
  induction (map_to_list (coll db)) as [|x l IH]; simpl; [constructor|].
  simpl in H. apply NoDup_cons in H as [Hx Hl].
  case_match; simpl; [|auto].
  apply NoDup_cons. split; [|auto].
  intros Hin. apply Hx.
  apply list_elem_of_fmap in Hin as (y & Hy & Hin).
  apply list_elem_of_fmap. exists y. split; [exact Hy|].
  apply list_elem_of_In, filter_In in Hin as [Hin _]. apply list_elem_of_In. exact Hin.
Qed.

Lemma elem_of_populated {D} (user : D -> ObjectId) (db : DB)
    (l : list (ObjectId * D)) (k : ObjectId) (d : D) (u : option User.t) :
  (k, d, u) ∈ populate_user user db <$> l <-> (k, d) ∈ l /\ u = users db !! user d.
Proof.
  rewrite list_elem_of_fmap. unfold populate_user. split.
  - intros ([k' d'] & E & Hin). simpl in E. injection E as -> -> ->. auto.
  - intros [Hin ->]. exists (k, d). auto.
Qed.
Lemma populated_fst {D} (user : D -> ObjectId) (db : DB) (l : list (ObjectId * D)) :
  (populate_user user db <$> l).*1 = l.
Proof. induction l as [|x l IH]; simpl; [reflexivity|]. f_equal. exact IH. Qed.

Lemma populated_listed {D} (user : D -> ObjectId) (coll : DB -> gmap string D)
    (filter : D -> bool) (date : D -> N) (db : DB) :
  listed date (populate_user user db <$> Model_find coll filter date db).
Proof.
  split.
  - apply (StronglySorted_fmap _ (newest_first date)); [|apply find_sorted].
    intros a b H. exact H.
  - rewrite populated_fst. apply find_NoDup.
Qed.

(** X24.  GET /api/comments/:recipeId answers 404 when the Recipe does not
    exist; otherwise it lists exactly the Comments attached to that Recipe,
    each once, the newest first, each with its author populated. *)
Theorem comments_list_attached (db : DB) (recipeId : string) (r : ObjectId) :
  castObjectId recipeId = Some r ->
  (recipes db !! r = None -> comments_list recipeId db = plain (NotFound "Recipe"))
  /\ (is_Some (recipes db !! r) ->
      exists l,
        comments_list recipeId db = {| code := 200; content := CommentList l |}
        /\ (forall c C u, (c, C, u) ∈ l <->
              comments db !! c = Some C /\ Comment.recipe C = r
              /\ u = users db !! Comment.user C)
        /\ listed Comment.date l).
Proof.
  intros Hr. split.
  - intros HR. unfold comments_list. rewrite (findById_missing recipes recipeId r db Hr HR).
    reflexivity.
  - intros [R HR]. unfold comments_list.
    rewrite (findById_found recipes recipeId r R db Hr HR). simpl.
    eexists. split; [reflexivity|]. split; [|apply populated_listed].
    intros c C u. rewrite elem_of_populated, elem_of_find.
    rewrite (eqb_toString_true (Comment.recipe C) r). tauto.
Qed.

Lemma comments_list_attached_witness :
  exists l,
    comments_list soup db0 = {| code := 200; content := CommentList l |}
    /\ (forall c C u, (c, C, u) ∈ l <->
          comments db0 !! c = Some C /\ Comment.recipe C = soup
          /\ u = users db0 !! Comment.user C)
    /\ listed Comment.date l.
Proof.
  apply (comments_list_attached db0 soup soup); [reflexivity|].
  eexists; reflexivity.
Defined.

(** X25.  GET /api/recipes lists every stored Recipe, and GET
    /api/recipes/user/:userId exactly the Recipes of that user; each
    listing has every Recipe once, the newest first, with its owner
    populated. *)
Theorem recipes_listings (db : DB) :
  (exists l,
     recipes_list db = {| code := 200; content := RecipeList l |}
     /\ (forall k R u, (k, R, u) ∈ l <->
           recipes db !! k = Some R /\ u = users db !! Recipe.user R)
     /\ listed Recipe.date l)
  /\ (forall userId u, castObjectId userId = Some u ->
      exists l,
        recipes_by_user userId db = {| code := 200; content := RecipeList l |}
        /\ (forall k R o, (k, R, o) ∈ l <->
              recipes db !! k = Some R /\ Recipe.user R = u
              /\ o = users db !! Recipe.user R)
        /\ listed Recipe.date l).
Proof.
  split.
  - unfold recipes_list. eexists. split; [reflexivity|]. split; [|apply populated_listed].
    intros k R u. rewrite elem_of_populated, elem_of_find. tauto.
  - intros userId u Hu. unfold recipes_by_user. rewrite Hu.
    eexists. split; [reflexivity|]. split; [|apply populated_listed].
    intros k R o. rewrite elem_of_populated, elem_of_find.
    rewrite (eqb_toString_true (Recipe.user R) u). tauto.
Qed.

Lemma recipes_listings_witness :
  exists l,
    recipes_by_user alice db0 = {| code := 200; content := RecipeList l |}
    /\ (forall k R o, (k, R, o) ∈ l <->
          recipes db0 !! k = Some R /\ Recipe.user R = alice
          /\ o = users db0 !! Recipe.user R)
    /\ listed Recipe.date l.
Proof.
  destruct (recipes_listings db0) as [_ H]. apply (H alice alice). reflexivity.
Defined.

Lemma populate_recipes_ids (db : DB) (l : list ObjectId) :
  (populate_recipes db l).*1 = filter (fun r => is_Some (recipes db !! r)) l.
Proof.
  unfold populate_recipes. induction l as [|x l IH]; simpl; [reflexivity|].
  rewrite filter_cons. destruct (recipes db !! x) as [R|] eqn:E; simpl.
  - f_equal. exact IH.
  - exact IH.
Qed.
(** X26.  GET /api/folders/:id shows a Folder exactly to its owner and,
    when it is public, to everyone; any other user gets 401.  The members
    shown are the Recipes of the list that still exist, in the order of the
    list, each with its title and its owner populated: a member whose
    Recipe was deleted is left out. *)
Theorem folders_get_visibility (db : DB) (id : string) (k : ObjectId) (F : Folder.t)
    (uid : string) :
  castObjectId id = Some k ->
  folders db !! k = Some F ->
  (code (folders_get id uid db) = 200%nat <->
     Folder.user F = uid \/ Folder.isPublic F = true)
  /\ (Folder.user F <> uid -> Folder.isPublic F = false ->
        folders_get id uid db
          = plain {| status := 401; body := Msg "Not authorized to view this folder" |})
  /\ (Folder.user F = uid \/ Folder.isPublic F = true ->
        exists members,
          folders_get id uid db
            = {| code := 200; content := FolderPopulated k F members |}
          /\ members.*1 = filter (fun r => is_Some (recipes db !! r)) (Folder.recipes F)
          /\ (forall r card, (r, card) ∈ members ->
                exists R, recipes db !! r = Some R
                  /\ card_title card = Recipe.title R
                  /\ card_user card = users db !! Recipe.user R)).
Proof.
  intros Hc HF.
  unfold folders_get. rewrite (findById_found folders id k F db Hc HF). simpl.
  destruct (String.eqb (toString (Folder.user F)) uid) eqn:Eu;
    [apply eqb_toString_true in Eu | apply eqb_toString_false in Eu];
    (destruct (Folder.isPublic F) eqn:Ep); simpl.
  all: assert (Hmem : forall members,
         members = populate_recipes db (Folder.recipes F) ->
         members.*1 = filter (fun r => is_Some (recipes db !! r)) (Folder.recipes F)
         /\ (forall r card, (r, card) ∈ members ->
               exists R, recipes db !! r = Some R
                 /\ card_title card = Recipe.title R
                 /\ card_user card = users db !! Recipe.user R)).
  1,3,5,7: intros members ->; split; [apply populate_recipes_ids|];
    intros r card Hin; unfold populate_recipes in Hin;
    apply list_elem_of_omap in Hin as (x & _ & Hx);
    destruct (recipes db !! x) as [R|] eqn:ER; [|discriminate];
    simpl in Hx; injection Hx as <- <-; exists R; auto.
  - split; [split; [auto | reflexivity]|]. split; [intros; contradiction|].
    intros _. eexists. split; [reflexivity|]. apply Hmem. reflexivity.
  - split; [split; [auto | reflexivity]|]. split; [intros; contradiction|].
    intros _. eexists. split; [reflexivity|]. apply Hmem. reflexivity.
  - split; [split; [auto | reflexivity]|]. split; [intros; discriminate|].
    intros _. eexists. split; [reflexivity|]. apply Hmem. reflexivity.
  - split; [split; [discriminate | intros [? | ?]; [contradiction | discriminate]]|].
    split; [reflexivity|]. intros [? | ?]; [contradiction | discriminate].
Qed.

Lemma folders_get_visibility_witness :
  folders_get shelf bob db0
    = plain {| status := 401; body := Msg "Not authorized to view this folder" |}
  /\ exists members,
       folders_get shelf alice db0
         = {| code := 200; content := FolderPopulated shelf shelfF members |}
       /\ members.*1 = [stew].
Proof.
  split.
  - apply (folders_get_visibility db0 shelf shelf shelfF bob);
      try reflexivity; discriminate.
  - destruct (folders_get_visibility db0 shelf shelf shelfF alice)
      as (_ & _ & H); try reflexivity.
    destruct H as (members & Hrun & Hids & _); [left; reflexivity|].
    exists members. split; [exact Hrun|]. rewrite Hids. reflexivity.
Defined.

(** X27.  GET /api/folders lists exactly the Folders of the requesting
    user, and GET /api/folders/public/all exactly the Folders whose
    [isPublic] is true, with their owners populated; both are newest first
    and hold no Folder twice.  So a private Folder of another user appears
    in neither. *)
Theorem folders_listings (db : DB) (uid : string) :
  printed uid ->
  exists mine shared,
    folders_list uid db = {| code := 200; content := FolderList mine |}
    /\ folders_public db = {| code := 200; content := FolderPublicList shared |}
    /\ (forall k F, (k, F) ∈ mine <-> folders db !! k = Some F /\ Folder.user F = uid)
    /\ (forall k F u, (k, F, u) ∈ shared <->
          folders db !! k = Some F /\ Folder.isPublic F = true
          /\ u = users db !! Folder.user F)
    /\ StronglySorted (newest_first Folder.date) mine
    /\ NoDup mine.*1
    /\ listed Folder.date shared.
Proof.
  intros Hu. unfold folders_list, folders_public. rewrite Hu.
  eexists. eexists. split; [reflexivity|]. split; [reflexivity|].
  split; [|split]; [| |split; [apply find_sorted | split; [apply find_NoDup | apply populated_listed]]].
  - intros k F. rewrite elem_of_find, (eqb_toString_true (Folder.user F) uid). tauto.
  - intros k F u. rewrite elem_of_populated, elem_of_find. tauto.
Qed.

Lemma folders_listings_witness :
  exists mine shared,
    folders_list bob db0 = {| code := 200; content := FolderList mine |}
    /\ folders_public db0 = {| code := 200; content := FolderPublicList shared |}
    /\ ((shelf, shelfF) ∉ mine)
    /\ (forall u, (shelf, shelfF, u) ∉ shared).
Proof.
  destruct (folders_listings db0 bob) as (mine & shared & H1 & H2 & Hm & Hs & _);
    [reflexivity|].
  exists mine, shared. split; [exact H1|]. split; [exact H2|]. split.
  - intros Hin. apply Hm in Hin as [_ Hu]. discriminate.
  - intros u Hin. apply Hs in Hin as (_ & Hp & _). discriminate.
Defined.

(** X28.  GET /api/recipes/:id of a fork, made of a source that passes the
    schema's validators, answers the fork with its source populated as
    [parentRecipe]; after the owner of the source has deleted the source,
    the fork is still stored and still names it, and the same read answers
    the fork with [parentRecipe] null. *)
Theorem recipes_get_lineage (db : DB) (newId : ObjectId) (now : N) (id : string)
    (k : ObjectId) (S : Recipe.t) (uid : string) (b : RecipeBody) :
  castObjectId id = Some k ->
  recipes db !! k = Some S ->
  Recipe_validate S = true ->
  printed uid ->
  printed newId ->
  recipes db !! newId = None ->
  exists new,
    recipes (snd (recipes_fork newId now id uid b db)) !! newId = Some new
    /\ Recipe.parentRecipe new = Some k
    /\ recipes_get newId (snd (recipes_fork newId now id uid b db))
       = {| code := 200;
            content := RecipePopulated newId new (users db !! uid) (Some (k, S)) |}
    /\ recipes_get newId
         (snd (recipes_delete id (Recipe.user S)
                 (snd (recipes_fork newId now id uid b db))))
       = {| code := 200;
            content := RecipePopulated newId new (users db !! uid) None |}.
Proof.
  intros Hc HS Hvalid Hu Hn Hfresh.
  assert (Hne : k <> newId) by congruence.
  unfold recipes_fork, try_catch, bind.
  rewrite (findById_found recipes id k S db Hc HS).
  unfold new_Recipe. simpl. rewrite Hu. simpl.
  rewrite (Recipe_validate_ext _ S) by reflexivity. rewrite Hvalid.
  unfold ret, Recipe_insert. rewrite Hfresh. simpl.
  eexists. split; [apply lookup_insert_eq|]. split; [reflexivity|]. split.
  - unfold recipes_get, findById. rewrite Hn. simpl.
    rewrite lookup_insert_eq. simpl.
    rewrite lookup_insert_ne by (intros E; apply Hne; symmetry; exact E).
    unfold ObjectId in *. rewrite HS. reflexivity.
  - unfold recipes_delete, try_catch, bind, findById. rewrite Hc. simpl.
    rewrite lookup_insert_ne by (intros E; apply Hne; symmetry; exact E).
    unfold ObjectId in *. rewrite HS. simpl.
    unfold toString. rewrite String.eqb_refl. simpl.
    unfold Comment_deleteMany_recipe. rewrite Hc. simpl.
    unfold recipes_get, findById. rewrite Hn. simpl.
    rewrite lookup_delete_ne by exact Hne.
    rewrite lookup_insert_eq. simpl.
    rewrite lookup_delete_eq. reflexivity.
Qed.

Lemma recipes_get_lineage_witness :
  exists new,
    recipes_get fresh1 (snd (recipes_fork fresh1 7%N soup bob no_body db0))
      = {| code := 200;
           content := RecipePopulated fresh1 new (users db0 !! bob) (Some (soup, soupR)) |}
    /\ recipes_get fresh1
         (snd (recipes_delete soup alice
                 (snd (recipes_fork fresh1 7%N soup bob no_body db0))))
       = {| code := 200;
            content := RecipePopulated fresh1 new (users db0 !! bob) None |}.
Proof.
  destruct (recipes_get_lineage db0 fresh1 7%N soup soup soupR bob no_body)
    as (new & _ & _ & Hget & Hgone); try reflexivity.
  exists new. split; [exact Hget | exact Hgone].
Defined.
